(** * controladorTemperatura: the ESP32 control-panel firmware (src/main.cpp)

    A shallow embedding of the sketch: the six global variables, the board
    state the sketch drives (GPIO latches, CPU clock, Bluetooth serial, the
    SPIFFS calibration file) and a log of every library call it issues.
    Every routine of main.cpp is a function [World -> World]; what the
    sketch reads from the outside (millis(), the touch controller, the
    temperature bus, the serial ports) is an explicit input record. *)

From Stdlib Require Import ZArith List String Ascii Bool Lia.
Import ListNotations.

Local Open Scope string_scope.
Local Open Scope list_scope.
Local Open Scope Z_scope.

(** Arduino's [String] concatenation, written [+] in the sketch. *)
Local Infix "+++" := String.append (at level 60, right associativity).

(** ** Library types and constants *)

(** A digital level; [digitalWrite(pin, b)] with a [bool] writes [HIGH] for
    [true] and [LOW] for [false]. *)
Inductive Level : Set := LOW | HIGH.

Definition levelOfBool (b : bool) : Level := if b then HIGH else LOW.

Definition Level_eqb (a b : Level) : bool :=
  match a, b with
  | LOW, LOW | HIGH, HIGH => true
  | _, _ => false
  end.

(** The temperature bus hands out C [float]s.  The sketch does two things
    with a reading: compare it with [DEVICE_DISCONNECTED_C] and print it with
    [String(t, 1)].  Both belong to the libraries, so they are the interface
    the embedding is parametric in. *)
Class Thermometer : Type := {
  Temp : Type;
  isDisconnected : Temp -> bool;   (* t == DEVICE_DISCONNECTED_C *)
  String1 : Temp -> string         (* String(t, 1) *)
}.

(** Calls on the [tft] object, in the order of appearance in the sketch. *)
Inductive TftCall : Type :=
| tft_init
| setRotation (r : Z)
| fillScreen (color : Z)
| fillRect (x y w h color : Z)
| drawFastHLine (x y w color : Z)
| drawRoundRect (x y w h r color : Z)
| fillRoundRect (x y w h r color : Z)
| setTextColor (fg : Z) (bg : option Z)
| setTextDatum (d : Z)
| drawString (s : string) (x y font : Z)
| setCursor (x y : Z)
| setTextFont (f : Z)
| setTextSize (s : Z)
| tft_println (s : string)
| writecommand (c : Z)
| setTouch (calData : list Z)
| calibrateTouch (fg bg size : Z).

(** Everything the sketch asks of the libraries, logged newest first. *)
Inductive Event : Type :=
| Serial_begin (baud : Z)
| Serial_print (s : string)
| Serial_println (s : string)
| SerialBT_register_callback
| SerialBT_begin (name : string)
| SerialBT_end
| SerialBT_print (s : string)
| sensors_begin
| sensors_requestTemperatures
| pinMode_OUTPUT (pin : Z)
| digitalWrite_ev (pin : Z) (v : Level)
| setCpuFrequencyMhz_ev (mhz : Z)
| delay_ev (ms : Z)
| file_write (data : list Byte.byte)
| tft (c : TftCall).

Inductive spp_event : Set :=
| ESP_SPP_SRV_OPEN_EVT
| ESP_SPP_OTHER_EVT (code : Z).

(** --- Configuración de Hardware --- *)
Definition PIN_BL : Z := 32.
Definition PIN_RELE1 : Z := 33.
Definition PIN_RELE2 : Z := 26.

(** --- Colores --- *)
Definition COL_FONDO : Z := 0x0842.
Definition COL_CARD : Z := 0x10A4.
Definition COL_ACCENT : Z := 0x03EF.
Definition COL_BTN_ON : Z := 0x2661.
Definition COL_BTN_OFF : Z := 0x114F.
Definition COL_TEXTO : Z := 0xFFFF.
Definition COL_SUBTEXTO : Z := 0xAD75.
Definition TFT_BLACK : Z := 0x0000.
Definition TFT_WHITE : Z := 0xFFFF.
Definition TFT_MAGENTA : Z := 0xF81F.
Definition MC_DATUM : Z := 4.

(** --- Geometría --- *)
Definition btnY : Z := 250.
Definition btnH : Z := 60.
Definition btnW : Z := 105.
Definition btn1X : Z := 10.
Definition btn2X : Z := 125.
Definition cardH : Z := 85.

(** [unsigned long] is 32 bits wide on the ESP32: arithmetic on the
    timestamps wraps modulo 2^32. *)
Definition wrap32 (z : Z) : Z := z mod 2 ^ 32.

Definition nl : ascii := "010"%char.
Definition NL : string := String nl EmptyString.

(** ** The state *)

Record World : Type := mkWorld {
  (* --- Variables de Estado --- *)
  sistemaEstado : bool;
  pantallaEncendida : bool;
  btActivo : bool;
  lastRelayMillis : Z;
  lastTempMillis : Z;
  estadoRele : bool;
  (* the board *)
  gpio : Z -> Level;                    (* output latch of each pin *)
  cpuMHz : Z;                           (* last setCpuFrequencyMhz, or the reset clock *)
  btRunning : bool;                     (* SerialBT begun and not ended *)
  fsMounted : bool;                     (* SPIFFS.begin succeeded *)
  calFile : option (list Byte.byte);    (* contents of /TouchCalData, if it exists *)
  trace : list Event
}.

Definition set_sistemaEstado (v : bool) (w : World) : World :=
  let 'mkWorld _ p b lr lt er g c r m f tr := w in mkWorld v p b lr lt er g c r m f tr.

Definition set_pantallaEncendida (v : bool) (w : World) : World :=
  let 'mkWorld s _ b lr lt er g c r m f tr := w in mkWorld s v b lr lt er g c r m f tr.

Definition set_btActivo (v : bool) (w : World) : World :=
  let 'mkWorld s p _ lr lt er g c r m f tr := w in mkWorld s p v lr lt er g c r m f tr.

Definition set_lastRelayMillis (v : Z) (w : World) : World :=
  let 'mkWorld s p b _ lt er g c r m f tr := w in mkWorld s p b v lt er g c r m f tr.

Definition set_lastTempMillis (v : Z) (w : World) : World :=
  let 'mkWorld s p b lr _ er g c r m f tr := w in mkWorld s p b lr v er g c r m f tr.

Definition set_estadoRele (v : bool) (w : World) : World :=
  let 'mkWorld s p b lr lt _ g c r m f tr := w in mkWorld s p b lr lt v g c r m f tr.

Definition set_fsMounted (v : bool) (w : World) : World :=
  let 'mkWorld s p b lr lt er g c r _ f tr := w in mkWorld s p b lr lt er g c r v f tr.

(** One library call: log it. *)
Definition emit (e : Event) (w : World) : World :=
  let 'mkWorld s p b lr lt er g c r m f tr := w in
  mkWorld s p b lr lt er g c r m f (e :: tr).

Definition emits (es : list Event) (w : World) : World := fold_left (fun a e => emit e a) es w.

Definition draw (cs : list TftCall) (w : World) : World := emits (map tft cs) w.

(** Library calls that also change the board. *)
Definition digitalWrite (pin : Z) (v : Level) (w : World) : World :=
  let 'mkWorld s p b lr lt er g c r m f tr := w in
  mkWorld s p b lr lt er (fun q => if q =? pin then v else g q) c r m f
    (digitalWrite_ev pin v :: tr).

Definition setCpuFrequencyMhz (mhz : Z) (w : World) : World :=
  let 'mkWorld s p b lr lt er g _ r m f tr := w in
  mkWorld s p b lr lt er g mhz r m f (setCpuFrequencyMhz_ev mhz :: tr).

Definition SerialBT_begin_call (name : string) (w : World) : World :=
  let 'mkWorld s p b lr lt er g c _ m f tr := w in
  mkWorld s p b lr lt er g c true m f (SerialBT_begin name :: tr).

Definition SerialBT_end_call (w : World) : World :=
  let 'mkWorld s p b lr lt er g c _ m f tr := w in
  mkWorld s p b lr lt er g c false m f (SerialBT_end :: tr).

(** [f.write(data, n)] on a file opened with "w": the file now holds [data]. *)
Definition File_write (data : list Byte.byte) (w : World) : World :=
  let 'mkWorld s p b lr lt er g c r m _ tr := w in
  mkWorld s p b lr lt er g c r m (Some data) (file_write data :: tr).

Definition delay (ms : Z) : World -> World := emit (delay_ev ms).
Definition Serial_println_call (s : string) : World -> World := emit (Serial_println s).

(** Statements in sequence. *)
Notation "w |> f" := (f w) (at level 45, left associativity, only parsing).

(** ** What the sketch reads from outside *)

Section Sketch.
Context {T : Thermometer}.

(** The bus and the Bluetooth link as one routine finds them. *)
Record Ambient : Type := mkAmbient {
  tempC0 : Temp;          (* sensors.getTempCByIndex(0) *)
  tempC1 : Temp;          (* sensors.getTempCByIndex(1) *)
  hasClient : bool        (* SerialBT.hasClient() *)
}.

(** What setup() meets.  touch_calibrate moves 14 bytes through
    [uint16_t calData[5]], which is 10 bytes long: the last four fall past
    the array, where this build may or may not keep [check]. *)
Record SetupIn : Type := mkSetupIn {
  spiffsBegin : bool;               (* SPIFFS.begin(true) *)
  serialAvailable : Z;              (* Serial.available() inside touch_calibrate *)
  checkSlot : option nat;           (* which byte past calData holds check, if one does *)
  acquired : list Z;                (* calData[0..4] once calibrateTouch returns *)
  spill : list Byte.byte;           (* the 4 bytes past calData when f.write runs *)
  bootAmbient : Ambient
}.

(** What one pass of loop() meets; the four millis() calls are four readings. *)
Record LoopIn : Type := mkLoopIn {
  btAvailable : bool;                   (* SerialBT.available() *)
  incoming : string;                    (* SerialBT.readStringUntil('\n') *)
  millisTempCheck : Z;
  millisTempSet : Z;
  millisRelayCheck : Z;
  millisRelaySet : Z;
  touch : option (Z * Z);               (* tft.getTouch(&x, &y, 250) *)
  stillTouching : list (option (Z * Z));  (* the samples of the closing while loop *)
  ambient : Ambient
}.

(** ** Drawing *)

Definition dibujarInterfazBase (w : World) : World :=
  w |> draw
    [ fillScreen COL_FONDO;
      fillRect 0 0 240 40 COL_CARD;
      drawFastHLine 0 40 240 COL_ACCENT;
      setTextColor COL_TEXTO None;
      setTextDatum MC_DATUM;
      drawString "PANEL DE CONTROL" 100 20 2;
      fillRect 190 5 45 30 (if btActivo w then COL_ACCENT else COL_CARD);
      drawString (if btActivo w then "BT ON" else "BT OFF") 212 20 1;
      drawRoundRect 10 55 105 cardH 8 TFT_WHITE;
      drawRoundRect 125 55 105 cardH 8 TFT_WHITE;
      drawRoundRect 10 150 105 cardH 8 TFT_WHITE;
      drawRoundRect 125 150 105 cardH 8 TFT_WHITE;
      setTextColor COL_SUBTEXTO None;
      drawString "Sensor 1" 62 70 2;
      drawString "Sensor 2" 177 70 2;
      drawString "Rele 1" 62 165 2;
      drawString "Rele 2" 177 165 2 ].

Definition dibujarBotonSistema (estado : bool) (w : World) : World :=
  let color := if estado then COL_BTN_ON else COL_BTN_OFF in
  w |> draw
    [ fillRoundRect btn1X btnY btnW btnH 8 color;
      drawRoundRect btn1X btnY btnW btnH 8 COL_ACCENT;
      setTextColor COL_TEXTO None;
      setTextDatum MC_DATUM;
      drawString (if estado then "TACTIL ON" else "TACTIL OFF")
        (btn1X + btnW / 2) (btnY + btnH / 2) 2 ].

Definition dibujarBotonBL (w : World) : World :=
  w |> draw
    [ fillRoundRect btn2X btnY btnW btnH 8 COL_CARD;
      drawRoundRect btn2X btnY btnW btnH 8 COL_ACCENT;
      setTextColor COL_TEXTO None;
      setTextDatum MC_DATUM;
      drawString "SLEEP" (btn2X + btnW / 2) (btnY + btnH / 2) 2 ].

Definition actualizarVisualReles (w : World) : World :=
  w |> draw
    [ setTextDatum MC_DATUM;
      setTextColor (if estadoRele w then COL_BTN_ON else COL_SUBTEXTO) (Some COL_CARD);
      drawString (if estadoRele w then " ESTADO: ON " else " ESTADO: OFF") 62 195 2;
      setTextColor (if negb (estadoRele w) then COL_BTN_ON else COL_SUBTEXTO) (Some COL_CARD);
      drawString (if negb (estadoRele w) then " ESTADO: ON " else " ESTADO: OFF") 177 195 2 ].

Definition actualizarTemperaturas (a : Ambient) (w : World) : World :=
  let t1 := tempC0 a in
  let t2 := tempC1 a in
  w |> draw
    [ setTextDatum MC_DATUM;
      setTextColor COL_TEXTO (Some COL_CARD);
      drawString (if isDisconnected t1 then "--.- C" else String1 t1 +++ " C") 62 105 4;
      drawString (if isDisconnected t2 then "--.- C" else String1 t2 +++ " C") 177 105 4 ].

(** ** The status report *)

(** The text enviarReporteEstado builds in [reporte], as a function of the
    three globals and the two readings it looks at. *)
Definition reporte (rele sistema pantalla : bool) (t1 t2 : Temp) : string :=
  (NL +++ "--- REPORTE ESP32 ---" +++ NL)
  +++ ("S1: " +++ (if isDisconnected t1 then "ERR" else String1 t1 +++ "C") +++ " | ")
  +++ ("S2: " +++ (if isDisconnected t2 then "ERR" else String1 t2 +++ "C") +++ NL)
  +++ ("Reles: K1=" +++ (if rele then "ON" else "OFF")
         +++ " K2=" +++ (if negb rele then "ON" else "OFF") +++ NL)
  +++ ("Tactil: " +++ (if sistema then "ENCENDIDO" else "APAGADO") +++ NL)
  +++ ("Pantalla: " +++ (if pantalla then "ON" else "SLEEP") +++ NL)
  +++ ("---------------------" +++ NL).

Definition enviarReporteEstado (a : Ambient) (w : World) : World :=
  let r := reporte (estadoRele w) (sistemaEstado w) (pantallaEncendida w) (tempC0 a) (tempC1 a) in
  let w := w |> emit (Serial_print r) in
  if hasClient a then w |> emit (SerialBT_print r) else w.

Definition btCallback (event : spp_event) (a : Ambient) (w : World) : World :=
  match event with
  | ESP_SPP_SRV_OPEN_EVT =>
      w |> Serial_println_call (NL +++ "[BT] ¡Cliente conectado!")
        |> delay 200
        |> enviarReporteEstado a
  | ESP_SPP_OTHER_EVT _ => w
  end.

(** ** Bluetooth and power *)

Definition toggleBluetooth (w : World) : World :=
  let w := w |> set_btActivo (negb (btActivo w)) in
  let w :=
    if btActivo w
    then w |> setCpuFrequencyMhz 240
           |> SerialBT_begin_call "ESP32_TFT_TEST"
           |> Serial_println_call "BT: Visible"
    else w |> SerialBT_end_call
           |> Serial_println_call "BT: Apagado" in
  if pantallaEncendida w
  then w |> draw
         [ fillRect 190 5 45 30 (if btActivo w then COL_ACCENT else COL_CARD);
           setTextColor COL_TEXTO None;
           setTextDatum MC_DATUM;
           drawString (if btActivo w then "BT ON" else "BT OFF") 212 20 1 ]
  else w.

Definition gestionarModoEnergia (despertar : bool) (a : Ambient) (w : World) : World :=
  if despertar
  then
    let w := w |> setCpuFrequencyMhz 240
               |> draw [ writecommand 0x11 ]        (* Wake up display *)
               |> delay 120
               |> digitalWrite PIN_BL LOW           (* 1 = ON *)
               |> set_pantallaEncendida true in
    w |> dibujarInterfazBase
      |> dibujarBotonSistema (sistemaEstado w)
      |> dibujarBotonBL
      |> actualizarVisualReles
      |> actualizarTemperaturas a
  else
    let w := w |> digitalWrite PIN_BL LOW           (* 0 = OFF *)
               |> draw [ writecommand 0x10 ] in     (* Sleep display *)
    let w := if btActivo w
             then w |> setCpuFrequencyMhz 160
             else w |> setCpuFrequencyMhz 80 in
    w |> set_pantallaEncendida false.

(** ** Touch calibration *)

(** [SPIFFS.exists] and [SPIFFS.open(.., "r")] find the file only on a
    mounted store; [open(.., "w")] needs the mounted store alone. *)
Definition SPIFFS_exists (w : World) : bool :=
  fsMounted w && match calFile w with Some _ => true | None => false end.

Definition SPIFFS_open_r (w : World) : option (list Byte.byte) :=
  if fsMounted w then calFile w else None.

(** [f.readBytes(buf, n)] copies at most [n] bytes and returns how many. *)
Definition readBytes (n : nat) (content : list Byte.byte) : list Byte.byte := firstn n content.

(** [uint16_t calData[5]] seen as bytes: ten of them, each word low byte
    first (the ESP32 is little-endian). *)
Definition byteZ (b : Byte.byte) : Z := Z.of_N (Byte.to_N b).

Definition byteOfZ (z : Z) : Byte.byte :=
  match Byte.of_N (Z.to_N (z mod 256)) with
  | Some b => b
  | None => Byte.x00
  end.

Fixpoint palabras (bs : list Byte.byte) : list Z :=
  match bs with
  | lo :: hi :: rest => (byteZ lo + 256 * byteZ hi) :: palabras rest
  | _ => []
  end.

Definition octetos (ws : list Z) : list Byte.byte :=
  flat_map (fun v => [byteOfZ v; byteOfZ (v / 256)]) ws.

(** [check] when the read block is over.  [check = 1] follows a read of 14
    bytes.  A shorter read leaves the 0 it was initialised with, unless
    the read ran past the ten bytes of calData onto [check] itself: it
    then holds the byte that was read there. *)
Definition checkTrasLeer (slot : option nat) (content : list Byte.byte) : bool :=
  let n := List.length (readBytes 14 content) in
  if Nat.eqb n 14 then true
  else match slot with
       | Some k =>
           Nat.ltb (10 + k) n
           && negb (Byte.eqb (nth (10 + k) content Byte.x00) Byte.x00)
       | None => false
       end.

Definition touch_calibrate (i : SetupIn) (w : World) : World :=
  (* 1. the file, when it exists and opens *)
  let leido := if SPIFFS_exists w then SPIFFS_open_r w else None in
  let check :=
    match leido with
    | Some content => checkTrasLeer (checkSlot i) content
    | None => false
    end in
  if check && (serialAvailable i =? 0)
  then
    (* 2. the five words of calData go to the display driver *)
    let calData :=
      match leido with
      | Some content => palabras (firstn 10 (readBytes 14 content))
      | None => []
      end in
    w |> draw [ setTouch calData ]
      |> Serial_println_call "Datos de calibracion cargados desde SPIFFS"
  else
    (* 3. interactive calibration *)
    let w := w |> draw
      [ fillScreen TFT_BLACK;
        setCursor 20 0;
        setTextFont 2;
        setTextSize 1;
        setTextColor TFT_WHITE (Some TFT_BLACK);
        tft_println "Toca las esquinas indicadas para calibrar";
        setTextFont 1;
        tft_println "(Mantente presionado hasta que desaparezca)";
        calibrateTouch TFT_MAGENTA TFT_BLACK 15 ] in
    (* 4. f.write(calData, 14): the ten bytes of calData and the four after them *)
    let w :=
      if fsMounted w
      then w |> File_write (octetos (acquired i) ++ spill i)
             |> Serial_println_call "Calibracion completa y guardada."
      else w in
    w |> draw [ fillScreen TFT_BLACK ].

(** ** setup() and loop() *)

Definition setup (i : SetupIn) (w : World) : World :=
  let w := w |> emit (Serial_begin 115200)
             |> setCpuFrequencyMhz 240
             |> emit (pinMode_OUTPUT PIN_RELE1)
             |> emit (pinMode_OUTPUT PIN_RELE2)
             |> digitalWrite PIN_RELE1 LOW
             |> digitalWrite PIN_RELE2 HIGH
             |> emit sensors_begin
             |> set_fsMounted (spiffsBegin i) in
  let w := if negb (spiffsBegin i) then w |> Serial_println_call "Error SPIFFS" else w in
  let w := w |> draw [ tft_init; setRotation 0; fillScreen TFT_BLACK ]
             |> emit SerialBT_register_callback
             |> touch_calibrate i
             |> dibujarInterfazBase in
  let w := w |> dibujarBotonSistema (sistemaEstado w)
             |> dibujarBotonBL
             |> actualizarVisualReles
             |> actualizarTemperaturas (bootAmbient i)
             |> emit (pinMode_OUTPUT PIN_BL)
             |> digitalWrite PIN_BL LOW             (* 1 = ON *)
             |> set_pantallaEncendida true in
  w |> Serial_println_call "--- Sistema Iniciado y Pantalla ON ---".

(** Escucha Bluetooth *)
Definition escuchaBluetooth (i : LoopIn) (w : World) : World :=
  if btActivo w && btAvailable i
  then w |> Serial_println_call ("BT RECIBIDO: " +++ incoming i)
  else w.

(** Sensores cada 2s *)
Definition tareaSensores (i : LoopIn) (w : World) : World :=
  if wrap32 (millisTempCheck i - lastTempMillis w) >=? 2000
  then
    let w := w |> set_lastTempMillis (millisTempSet i)
               |> emit sensors_requestTemperatures in
    if pantallaEncendida w then w |> actualizarTemperaturas (ambient i) else w
  else w.

(** Relés cada 3s *)
Definition tareaReles (i : LoopIn) (w : World) : World :=
  if wrap32 (millisRelayCheck i - lastRelayMillis w) >=? 3000
  then
    let w := w |> set_lastRelayMillis (millisRelaySet i) in
    let w := w |> set_estadoRele (negb (estadoRele w)) in
    let w := w |> digitalWrite PIN_RELE1 (levelOfBool (estadoRele w)) in
    let w := w |> digitalWrite PIN_RELE2 (levelOfBool (negb (estadoRele w))) in
    if pantallaEncendida w then w |> actualizarVisualReles else w
  else w.

(** [while (tft.getTouch(&x, &y, 250));] polls until a sample reports no
    contact; it only overwrites the locals x and y. *)
Fixpoint esperarSoltar (samples : list (option (Z * Z))) (w : World) : World :=
  match samples with
  | Some _ :: rest => esperarSoltar rest w
  | _ => w
  end.

(** The body of [if (tft.getTouch(&x, &y, 250))], x and y being uint16_t. *)
Definition tareaTactil (i : LoopIn) (x y : Z) (w : World) : World :=
  (* Esquina superior derecha: Toggle BT *)
  if (y <? 40) && (x >? 180)
  then w |> toggleBluetooth |> delay 300            (* return *)
  else
    let w :=
      if negb (pantallaEncendida w)
      then
        (* Área de botón para despertar *)
        if (x >? btn2X) && (x <? btn2X + btnW) && (y >? btnY) && (y <? btnY + btnH)
        then w |> gestionarModoEnergia true (ambient i) |> delay 300
        else w
      else
        (* Botón Táctil ON/OFF *)
        if (x >? btn1X) && (x <? btn1X + btnW) && (y >? btnY) && (y <? btnY + btnH)
        then
          let w := w |> set_sistemaEstado (negb (sistemaEstado w)) in
          w |> dibujarBotonSistema (sistemaEstado w)
            |> Serial_println_call
                 ("Tactil presionado: " +++ (if sistemaEstado w then "ON" else "OFF"))
            |> enviarReporteEstado (ambient i)
            |> delay 350
        (* Botón Sleep *)
        else if (x >? btn2X) && (x <? btn2X + btnW) && (y >? btnY) && (y <? btnY + btnH)
        then w |> gestionarModoEnergia false (ambient i)
        else w in
    w |> esperarSoltar (stillTouching i).

Definition loop (i : LoopIn) (w : World) : World :=
  let w := w |> escuchaBluetooth i |> tareaSensores i |> tareaReles i in
  match touch i with
  | Some (x, y) => w |> tareaTactil i x y
  | None => w
  end.

(** ** Runs of the firmware *)

(** The world at reset: the globals as their initialisers leave them, the
    pins and the clock as the chip happens to have them, the flash file as
    an earlier run left it. *)
Definition powerOn (pins : Z -> Level) (mhz : Z) (stored : option (list Byte.byte)) : World :=
  mkWorld false true false 0 0 false pins mhz false false stored [].

(** The states the firmware passes through between two routines: setup()
    once, then passes of loop(), with the Bluetooth callback in between. *)
Inductive reachable : World -> Prop :=
| reach_setup : forall pins mhz stored i,
    reachable (setup i (powerOn pins mhz stored))
| reach_loop : forall i w,
    reachable w -> reachable (loop i w)
| reach_btCallback : forall event a w,
    reachable w -> reachable (btCallback event a w).

(** ** Observations *)

Definition relay1 (w : World) : Level := gpio w PIN_RELE1.
Definition relay2 (w : World) : Level := gpio w PIN_RELE2.
Definition backlight (w : World) : Level := gpio w PIN_BL.

(** relay1 = relayPhase and relay2 = !relayPhase. *)
Definition relesComplementarios (w : World) : Prop :=
  relay1 w = levelOfBool (estadoRele w) /\ relay2 w = levelOfBool (negb (estadoRele w)).

(** The relay side of the world: the phase and the two output latches. *)
Definition mismosReles (w w' : World) : Prop :=
  estadoRele w' = estadoRele w /\ relay1 w' = relay1 w /\ relay2 w' = relay2 w.

(** Does the relay block of a pass that reads [now] fire on [w]? *)
Definition releVencido (now : Z) (w : World) : bool :=
  wrap32 (now - lastRelayMillis w) >=? 3000.

(** The log, oldest call first. *)
Definition history (w : World) : list Event := rev (trace w).

Definition isCalibrateTouch (e : Event) : bool :=
  match e with tft (calibrateTouch _ _ _) => true | _ => false end.

Definition setTouchArg (e : Event) : list (list Z) :=
  match e with tft (setTouch d) => [d] | _ => [] end.

Definition writecommandArg (e : Event) : list Z :=
  match e with tft (writecommand c) => [c] | _ => [] end.

Definition Serial_printArg (e : Event) : list string :=
  match e with Serial_print s => [s] | _ => [] end.

Definition SerialBT_printArg (e : Event) : list string :=
  match e with SerialBT_print s => [s] | _ => [] end.

(** How many times the interactive calibration ran, and what was handed to
    tft.setTouch, sent to the display as a command, printed on each port. *)
Definition acquisitions (w : World) : nat := List.length (filter isCalibrateTouch (trace w)).
Definition loadedCalibrations (w : World) : list (list Z) := flat_map setTouchArg (history w).
Definition displayCommands (w : World) : list Z := flat_map writecommandArg (history w).
Definition consoleReports (w : World) : list string := flat_map Serial_printArg (history w).
Definition wirelessReports (w : World) : list string := flat_map SerialBT_printArg (history w).

(** ** Text layout *)

(** A text cut at its line feeds. *)
Fixpoint lines (s : string) : list string :=
  match s with
  | EmptyString => [EmptyString]
  | String c rest =>
      if Ascii.eqb c nl then EmptyString :: lines rest
      else match lines rest with
           | [] => [String c EmptyString]
           | l :: ls => String c l :: ls
           end
  end.

Fixpoint oneLine (s : string) : bool :=
  match s with
  | EmptyString => true
  | String c rest => negb (Ascii.eqb c nl) && oneLine rest
  end.

Fixpoint startsWith (p s : string) : bool :=
  match p with
  | EmptyString => true
  | String a p' =>
      match s with
      | EmptyString => false
      | String b s' => Ascii.eqb a b && startsWith p' s'
      end
  end.

(** Does [needle] occur in [hay]? *)
Fixpoint mentions (needle hay : string) : bool :=
  startsWith needle hay
  || match hay with
     | EmptyString => false
     | String _ rest => mentions needle rest
     end.

(** The lines of a text that carry a sensor field. *)
Definition sensorLines (text : string) : list string :=
  filter (fun l => mentions "S1: " l || mentions "S2: " l) (lines text).

(** One sensor field of the report. *)
Definition campoSensor (t : Temp) : string :=
  if isDisconnected t then "ERR" else String1 t +++ "C".

(** ** The touch router as the specification words it

    The specification names the outcome of a touch; the sketch has no such
    type.  [resolveAction] follows the priority order of the specification
    over the regions the sketch tests, and [performAction] names what each
    outcome runs; they are compared with [tareaTactil] below. *)

Inductive Action : Set := NoAction | ToggleWireless | WakeDisplay | ToggleOutput | SleepDisplay.

Definition inStatusRegion (x y : Z) : bool := (y <? 40) && (x >? 180).

Definition inLeftButton (x y : Z) : bool :=
  (x >? btn1X) && (x <? btn1X + btnW) && (y >? btnY) && (y <? btnY + btnH).

Definition inRightButton (x y : Z) : bool :=
  (x >? btn2X) && (x <? btn2X + btnW) && (y >? btnY) && (y <? btnY + btnH).

Definition resolveAction (displayAwake : bool) (x y : Z) : Action :=
  if inStatusRegion x y then ToggleWireless
  else if negb displayAwake
       then if inRightButton x y then WakeDisplay else NoAction
       else if inLeftButton x y then ToggleOutput
            else if inRightButton x y then SleepDisplay
                 else NoAction.

Definition performAction (act : Action) (a : Ambient) (w : World) : World :=
  match act with
  | NoAction => w
  | ToggleWireless => w |> toggleBluetooth |> delay 300
  | WakeDisplay => w |> gestionarModoEnergia true a |> delay 300
  | ToggleOutput =>
      let w := w |> set_sistemaEstado (negb (sistemaEstado w)) in
      w |> dibujarBotonSistema (sistemaEstado w)
        |> Serial_println_call
             ("Tactil presionado: " +++ (if sistemaEstado w then "ON" else "OFF"))
        |> enviarReporteEstado a
        |> delay 350
  | SleepDisplay => w |> gestionarModoEnergia false a
  end.

End Sketch.

(** ** A bench set-up

    Probes whose reading is its own print-out: [None] is a probe that
    answers DEVICE_DISCONNECTED_C, [Some "21.5"] one that reads 21.5 degrees. *)
Definition sondasDeBanco : Thermometer :=
  {| Temp := option string;
     isDisconnected := fun t => match t with None => true | Some _ => false end;
     String1 := fun t => match t with Some s => s | None => "-127.0" end |}.

Definition sinSondas : @Ambient sondasDeBanco := @mkAmbient sondasDeBanco None None false.

Definition dosSondas : @Ambient sondasDeBanco :=
  @mkAmbient sondasDeBanco (Some "21.5") (Some "-3.0") true.

Definition blob14 : list Byte.byte :=
  [Byte.x01; Byte.x02; Byte.x03; Byte.x04; Byte.x05; Byte.x06; Byte.x07;
   Byte.x08; Byte.x09; Byte.x0a; Byte.x0b; Byte.x0c; Byte.x0d; Byte.x0e].

(** The five words and the four bytes after them that make up [blob14]. *)
Definition palabrasDeBanco : list Z := [0x0201; 0x0403; 0x0605; 0x0807; 0x0a09].

Definition restoDeBanco : list Byte.byte := [Byte.x0b; Byte.x0c; Byte.x0d; Byte.x0e].

(** A first boot: flash mounts, nothing on the serial port, [check] kept
    away from calData. *)
Definition arranqueNormal : @SetupIn sondasDeBanco :=
  @mkSetupIn sondasDeBanco true 0 None palabrasDeBanco restoDeBanco sinSondas.

(** The same boot with one byte waiting on the serial port. *)
Definition arranqueConSerie : @SetupIn sondasDeBanco :=
  @mkSetupIn sondasDeBanco true 1 None palabrasDeBanco restoDeBanco sinSondas.

Definition pinesBajos : Z -> Level := fun _ => LOW.

(** The board after a first boot on empty flash. *)
Definition mundoArrancado : World := setup arranqueNormal (powerOn pinesBajos 160 None).

(** One pass of loop() reading [now] on every millis() call, with an
    optional touch that is released at once. *)
Definition pasada (now : Z) (t : option (Z * Z)) : @LoopIn sondasDeBanco :=
  @mkLoopIn sondasDeBanco false "" now now now now t [] sinSondas.

(** The booted board put to sleep, and the booted board after a touch on
    the status corner, 100 ms after reset. *)
Definition mundoDormido : World := gestionarModoEnergia false sinSondas mundoArrancado.

Definition mundoConBluetooth : World := loop (pasada 100 (Some (200, 10))) mundoArrancado.

(** The board that boots on a stored calibration with a byte on the serial port. *)
Definition mundoRecalibrado : World :=
  setup arranqueConSerie (powerOn pinesBajos 160 (Some blob14)).

(** The report of a board with relay 2 on, touch output off, display on and
    probes at 21.5 and -3.0 degrees. *)
Definition reporteDeBanco : string :=
  @reporte sondasDeBanco false false true (Some "21.5") (Some "-3.0").


(** ** Further observations *)

(** Does the sensor block of a pass that reads [now] fire on [w]? *)
Definition sensorVencido (now : Z) (w : World) : bool :=
  wrap32 (now - lastTempMillis w) >=? 2000.

Definition isRequestTemperatures (e : Event) : bool :=
  match e with sensors_requestTemperatures => true | _ => false end.

(** How many conversions were requested from the temperature bus. *)
Definition conversionRequests (w : World) : nat :=
  List.length (filter isRequestTemperatures (trace w)).

Definition tftArg (e : Event) : list TftCall :=
  match e with tft c => [c] | _ => [] end.

(** The calls made on the display, newest first. *)
Definition displayCalls (w : World) : list TftCall := flat_map tftArg (trace w).

(** The six globals of the sketch. *)
Definition globales (w : World) : bool * bool * bool * Z * Z * bool :=
  (sistemaEstado w, pantallaEncendida w, btActivo w,
   lastRelayMillis w, lastTempMillis w, estadoRele w).

(** The world without its log: the globals and the board. *)
Definition sinTraza (w : World) : World :=
  let 'mkWorld s p b lr lt er g c r m f _ := w in mkWorld s p b lr lt er g c r m f [].

(** The Bluetooth link is started exactly when btActivo is set. *)
Definition enlaceCoherente (w : World) : Prop := btRunning w = btActivo w.

(** The clock is one of the three tiers, the top one while the display is
    on, and not the bottom one while Bluetooth is on. *)
Definition relojCoherente (w : World) : Prop :=
  (cpuMHz w = 80 \/ cpuMHz w = 160 \/ cpuMHz w = 240)
  /\ (pantallaEncendida w = true -> cpuMHz w = 240)
  /\ (btActivo w = true -> cpuMHz w <> 80).

Definition onOff (v : Level) : string := if Level_eqb v HIGH then "ON" else "OFF".

(** The newest text drawn with its datum at (x, y), in a list of display
    calls given newest first. *)
Fixpoint ultimoTexto (x y : Z) (calls : list TftCall) : option string :=
  match calls with
  | [] => None
  | drawString s x' y' _ :: rest =>
      if (x' =? x) && (y' =? y) then Some s else ultimoTexto x y rest
  | _ :: rest => ultimoTexto x y rest
  end.



(** A pass 500 ms after reset with a touch inside the left button. *)
Definition pasadaBotonIzquierdo : @LoopIn sondasDeBanco :=
  @mkLoopIn sondasDeBanco false "" 500 500 500 500 (Some (50, 280)) [] dosSondas.

(** * Properties *)

Section Properties.
Context {T : Thermometer}.

(** ** Bookkeeping *)

(** Run the sketch on a world given by its fields, leaving alone what is
    computed from the inputs. *)
Ltac run :=
  cbv -[Nat.eqb List.length firstn Z.eqb Z.geb Z.gtb Z.ltb wrap32 String.append
        Z.add Z.sub isDisconnected String1 app rev flat_map filter
        checkTrasLeer palabras octetos readBytes].

Lemma esperarSoltar_id (samples : list (option (Z * Z))) (w : World) :
  esperarSoltar samples w = w.
Proof.
  induction samples as [|[p|] rest IH]; simpl; auto.
Qed.

Lemma levelOfBool_negb (b : bool) : levelOfBool b <> levelOfBool (negb b).
Proof. destruct b; discriminate. Qed.

Lemma mismosReles_refl (w : World) : mismosReles w w.
Proof. repeat split. Qed.

Lemma mismosReles_trans (a b c : World) :
  mismosReles a b -> mismosReles b c -> mismosReles a c.
Proof.
  unfold mismosReles; intros (H1 & H2 & H3) (H4 & H5 & H6).
  repeat split; congruence.
Qed.

Lemma mismosReles_inv (w w' : World) :
  mismosReles w w' -> relesComplementarios w -> relesComplementarios w'.
Proof.
  unfold mismosReles, relesComplementarios; intros (H1 & H2 & H3) [H4 H5].
  rewrite H1, H2, H3; auto.
Qed.

(** Routines that leave the relay side alone. *)
Lemma toggleBluetooth_reles (w : World) : mismosReles w (toggleBluetooth w).
Proof.
  unfold toggleBluetooth; destruct w as [s p b lr lt e g c r m f tr]; simpl.
  destruct b, p; repeat split.
Qed.

Lemma gestionarModoEnergia_reles (d : bool) (a : Ambient) (w : World) :
  mismosReles w (gestionarModoEnergia d a w).
Proof.
  unfold gestionarModoEnergia; destruct w as [s p b lr lt e g c r m f tr]; simpl.
  destruct d, b; repeat split.
Qed.

Lemma enviarReporteEstado_reles (a : Ambient) (w : World) :
  mismosReles w (enviarReporteEstado a w).
Proof.
  unfold enviarReporteEstado; destruct w; simpl; destruct (hasClient a); repeat split.
Qed.

Lemma btCallback_reles (event : spp_event) (a : Ambient) (w : World) :
  mismosReles w (btCallback event a w).
Proof.
  destruct event; simpl; [|apply mismosReles_refl].
  unfold enviarReporteEstado; destruct w; simpl; destruct (hasClient a); repeat split.
Qed.

Lemma escuchaBluetooth_reles (i : LoopIn) (w : World) : mismosReles w (escuchaBluetooth i w).
Proof.
  unfold escuchaBluetooth; destruct (btActivo w && btAvailable i);
    destruct w; repeat split.
Qed.

Lemma tareaSensores_reles (i : LoopIn) (w : World) : mismosReles w (tareaSensores i w).
Proof.
  unfold tareaSensores.
  destruct (wrap32 (millisTempCheck i - lastTempMillis w) >=? 2000); [|apply mismosReles_refl].
  destruct w as [s p b lr lt e g c r m f tr]; simpl; destruct p; repeat split.
Qed.

Lemma performAction_reles (act : Action) (a : Ambient) (w : World) :
  mismosReles w (performAction act a w).
Proof.
  destruct act; unfold performAction.
  - apply mismosReles_refl.
  - apply mismosReles_trans with (b := toggleBluetooth w);
      [apply toggleBluetooth_reles|destruct (toggleBluetooth w); repeat split].
  - apply mismosReles_trans with (b := gestionarModoEnergia true a w);
      [apply gestionarModoEnergia_reles|destruct (gestionarModoEnergia true a w); repeat split].
  - unfold enviarReporteEstado; destruct w; simpl; destruct (hasClient a); repeat split.
  - apply gestionarModoEnergia_reles.
Qed.

(** The sketch's touch block is the router of the specification followed by
    the wait for release. *)
Lemma tareaTactil_router (i : LoopIn) (x y : Z) (w : World) :
  tareaTactil i x y w
  = performAction (resolveAction (pantallaEncendida w) x y) (ambient i) w.
Proof.
  unfold tareaTactil, resolveAction, inStatusRegion, inLeftButton, inRightButton.
  destruct ((y <? 40) && (x >? 180)); [reflexivity|].
  rewrite esperarSoltar_id.
  destruct (negb (pantallaEncendida w)).
  - destruct ((x >? btn2X) && (x <? btn2X + btnW) && (y >? btnY) && (y <? btnY + btnH));
      reflexivity.
  - destruct ((x >? btn1X) && (x <? btn1X + btnW) && (y >? btnY) && (y <? btnY + btnH));
      [reflexivity|].
    destruct ((x >? btn2X) && (x <? btn2X + btnW) && (y >? btnY) && (y <? btnY + btnH));
      reflexivity.
Qed.

Lemma tareaTactil_reles (i : LoopIn) (x y : Z) (w : World) :
  mismosReles w (tareaTactil i x y w).
Proof. rewrite tareaTactil_router; apply performAction_reles. Qed.

(** The relay block establishes the invariant from any phase and any pins. *)
Lemma tareaReles_fires (i : LoopIn) (w : World) :
  releVencido (millisRelayCheck i) w = true ->
  estadoRele (tareaReles i w) = negb (estadoRele w)
  /\ lastRelayMillis (tareaReles i w) = millisRelaySet i
  /\ relesComplementarios (tareaReles i w).
Proof.
  unfold releVencido, tareaReles; intros ->.
  destruct w as [s p b lr lt e g c r m f tr]; simpl.
  destruct p, e; repeat split.
Qed.

Lemma tareaReles_idle (i : LoopIn) (w : World) :
  releVencido (millisRelayCheck i) w = false -> tareaReles i w = w.
Proof. unfold releVencido, tareaReles; intros ->; reflexivity. Qed.

Lemma tareaReles_inv (i : LoopIn) (w : World) :
  relesComplementarios w -> relesComplementarios (tareaReles i w).
Proof.
  intros H; destruct (releVencido (millisRelayCheck i) w) eqn:E.
  - apply tareaReles_fires; assumption.
  - rewrite tareaReles_idle; assumption.
Qed.

Lemma loop_inv (i : LoopIn) (w : World) :
  relesComplementarios w -> relesComplementarios (loop i w).
Proof.
  intros H; unfold loop.
  assert (H1 : relesComplementarios (tareaReles i (tareaSensores i (escuchaBluetooth i w)))).
  { apply tareaReles_inv.
    eapply mismosReles_inv; [apply tareaSensores_reles|].
    eapply mismosReles_inv; [apply escuchaBluetooth_reles|]; assumption. }
  destruct (touch i) as [[x y]|]; [|assumption].
  eapply mismosReles_inv; [apply tareaTactil_reles|assumption].
Qed.

Lemma setup_estado (pins : Z -> Level) (mhz : Z) (stored : option (list Byte.byte)) (i : SetupIn) :
  let w := setup i (powerOn pins mhz stored) in
  pantallaEncendida w = true /\ sistemaEstado w = false /\ btActivo w = false
  /\ estadoRele w = false /\ relay1 w = LOW /\ relay2 w = HIGH /\ backlight w = LOW
  /\ btRunning w = false /\ cpuMHz w = 240 /\ lastRelayMillis w = 0 /\ lastTempMillis w = 0.
Proof.
  destruct i as [sb sa slot acq sp amb].
  destruct sb, stored as [c|]; run;
    try (destruct (checkTrasLeer slot c); destruct (sa =? 0); run);
    repeat split.
Qed.

(** What a pass of loop() does to the relay phase and its timestamp. *)
Lemma performAction_reloj (act : Action) (a : Ambient) (w : World) :
  lastRelayMillis (performAction act a w) = lastRelayMillis w.
Proof.
  destruct w as [s p b lr lt e g c r m f tr], a as [t1 t2 h].
  destruct act, b, p, h; reflexivity.
Qed.

Lemma antesDeReles (i : LoopIn) (w : World) :
  let w' := tareaSensores i (escuchaBluetooth i w) in
  estadoRele w' = estadoRele w /\ lastRelayMillis w' = lastRelayMillis w.
Proof.
  unfold tareaSensores, escuchaBluetooth.
  destruct w as [s p b lr lt e g c r m f tr]; cbn [btActivo lastTempMillis].
  destruct (b && btAvailable i); cbn [Serial_println_call emit lastTempMillis];
    destruct (wrap32 (millisTempCheck i - lt) >=? 2000);
    destruct p; split; reflexivity.
Qed.

Lemma loop_reles (i : LoopIn) (w : World) :
  (releVencido (millisRelayCheck i) w = true ->
     estadoRele (loop i w) = negb (estadoRele w)
     /\ lastRelayMillis (loop i w) = millisRelaySet i)
  /\ (releVencido (millisRelayCheck i) w = false ->
     estadoRele (loop i w) = estadoRele w
     /\ lastRelayMillis (loop i w) = lastRelayMillis w).
Proof.
  destruct (antesDeReles i w) as [He Hl].
  set (w' := tareaSensores i (escuchaBluetooth i w)) in *.
  assert (Hv : releVencido (millisRelayCheck i) w' = releVencido (millisRelayCheck i) w)
    by (unfold releVencido; rewrite Hl; reflexivity).
  assert (Hloop : estadoRele (loop i w) = estadoRele (tareaReles i w')
                  /\ lastRelayMillis (loop i w) = lastRelayMillis (tareaReles i w')).
  { unfold loop; fold w'. destruct (touch i) as [[x y]|]; [|split; reflexivity].
    rewrite tareaTactil_router; split.
    - apply performAction_reles.
    - apply performAction_reloj. }
  destruct Hloop as [-> ->].
  split; intros Hd; rewrite <- Hv in Hd.
  - destruct (tareaReles_fires i w' Hd) as (H1 & H2 & _). rewrite H1, H2, He; auto.
  - rewrite (tareaReles_idle i w' Hd); auto.
Qed.

Lemma wrap32_small (z : Z) : 0 <= z < 2 ^ 32 -> wrap32 z = z.
Proof. intros H; unfold wrap32; apply Z.mod_small; assumption. Qed.

Lemma releVencido_spec (now : Z) (w : World) :
  releVencido now w = true <-> 3000 <= wrap32 (now - lastRelayMillis w).
Proof. unfold releVencido; rewrite Z.geb_le; reflexivity. Qed.

Lemma releVencido_false (now : Z) (w : World) :
  releVencido now w = false <-> wrap32 (now - lastRelayMillis w) < 3000.
Proof. unfold releVencido; rewrite Z.geb_leb, Z.leb_gt; reflexivity. Qed.

(** C5: the relay block of a pass fires exactly when the 32-bit difference
    between millis() and lastRelayMillis is at least 3000 (the plain
    difference while the counter has not wrapped); 2999 ms is too early and
    3000 ms is due; a firing inverts estadoRele once and stores the fresh
    millis() reading, so however late it comes, a pass less than 3000 ms
    after it does nothing, and a pass 3000 ms after it inverts once more. *)
Theorem C5_relay_task_fires_every_3000ms (i : LoopIn) (w : World) :
  let elapsed := wrap32 (millisRelayCheck i - lastRelayMillis w) in
  (0 <= lastRelayMillis w <= millisRelayCheck i -> millisRelayCheck i < 2 ^ 32 ->
     elapsed = millisRelayCheck i - lastRelayMillis w)
  /\ (3000 <= elapsed ->
        estadoRele (loop i w) = negb (estadoRele w)
        /\ lastRelayMillis (loop i w) = millisRelaySet i
        /\ relay1 (tareaReles i w) = levelOfBool (negb (estadoRele w)))
  /\ (elapsed < 3000 ->
        estadoRele (loop i w) = estadoRele w
        /\ lastRelayMillis (loop i w) = lastRelayMillis w
        /\ tareaReles i w = w)
  /\ (0 <= lastRelayMillis w -> lastRelayMillis w + 2999 < 2 ^ 32 ->
        millisRelayCheck i = lastRelayMillis w + 2999 ->
        estadoRele (loop i w) = estadoRele w)
  /\ (0 <= lastRelayMillis w -> lastRelayMillis w + 3000 < 2 ^ 32 ->
        millisRelayCheck i = lastRelayMillis w + 3000 ->
        estadoRele (loop i w) = negb (estadoRele w))
  /\ (forall j : LoopIn,
        3000 <= elapsed ->
        0 <= millisRelaySet i <= millisRelayCheck j -> millisRelayCheck j < 2 ^ 32 ->
        (millisRelayCheck j < millisRelaySet i + 3000 ->
           estadoRele (loop j (loop i w)) = negb (estadoRele w)
           /\ lastRelayMillis (loop j (loop i w)) = millisRelaySet i)
        /\ (millisRelaySet i + 3000 <= millisRelayCheck j ->
           estadoRele (loop j (loop i w)) = estadoRele w
           /\ lastRelayMillis (loop j (loop i w)) = millisRelaySet j)).
Proof.
  intros elapsed.
  destruct (loop_reles i w) as [Hfire Hidle].
  assert (Hsmall : 0 <= lastRelayMillis w <= millisRelayCheck i -> millisRelayCheck i < 2 ^ 32 ->
            elapsed = millisRelayCheck i - lastRelayMillis w).
  { intros H1 H2; unfold elapsed; apply wrap32_small; lia. }
  assert (Hdue : 3000 <= elapsed ->
            estadoRele (loop i w) = negb (estadoRele w)
            /\ lastRelayMillis (loop i w) = millisRelaySet i
            /\ relay1 (tareaReles i w) = levelOfBool (negb (estadoRele w))).
  { intros H; apply releVencido_spec in H. destruct (Hfire H) as [H1 H2].
    destruct (tareaReles_fires i w H) as (H3 & _ & H4 & _).
    rewrite H3 in H4; auto. }
  assert (Hearly : elapsed < 3000 ->
            estadoRele (loop i w) = estadoRele w
            /\ lastRelayMillis (loop i w) = lastRelayMillis w
            /\ tareaReles i w = w).
  { intros H; apply releVencido_false in H. destruct (Hidle H) as [H1 H2].
    repeat split; auto using tareaReles_idle. }
  split; [exact Hsmall|]. split; [exact Hdue|]. split; [exact Hearly|].
  split; [|split].
  - intros H0 H1 H2. apply Hearly. rewrite Hsmall; lia.
  - intros H0 H1 H2. apply Hdue. rewrite Hsmall; lia.
  - intros j Hd Hr Hb.
    destruct (Hdue Hd) as (He & Hl & _).
    destruct (loop_reles j (loop i w)) as [Hfire2 Hidle2].
    assert (Hw : wrap32 (millisRelayCheck j - lastRelayMillis (loop i w))
                 = millisRelayCheck j - millisRelaySet i)
      by (rewrite Hl; apply wrap32_small; lia).
    split; intros Hj.
    + destruct Hidle2 as [H1 H2]; [apply releVencido_false; rewrite Hw; lia|].
      rewrite H1, H2, He, Hl; auto.
    + destruct Hfire2 as [H1 H2]; [apply releVencido_spec; rewrite Hw; lia|].
      rewrite H1, H2, He, negb_involutive; auto.
Qed.

Lemma reachable_inv (w : World) : reachable w -> relesComplementarios w.
Proof.
  induction 1 as [pins mhz stored i | i w Hr IH | event a w Hr IH].
  - destruct (setup_estado pins mhz stored i) as (_ & _ & _ & He & H1 & H2 & _).
    unfold relesComplementarios; rewrite He, H1, H2; split; reflexivity.
  - apply loop_inv; assumption.
  - eapply mismosReles_inv; [apply btCallback_reles|assumption].
Qed.

Lemma complementarios_distintos (w : World) :
  relesComplementarios w -> relay1 w <> relay2 w.
Proof. intros [-> ->]; apply levelOfBool_negb. Qed.

(** C1: relay1 carries estadoRele and relay2 its negation, hence the two
    outputs differ: after setup(), after a firing of the relay block from
    any state whatever its phase and pins, across every routine of the
    sketch, and so in every state the firmware reaches. *)
Theorem C1_relay_outputs_complementary :
  (forall pins mhz stored (i : SetupIn),
      relesComplementarios (setup i (powerOn pins mhz stored)))
  /\ (forall (i : LoopIn) (w : World),
        releVencido (millisRelayCheck i) w = true ->
        relesComplementarios (tareaReles i w)
        /\ relay1 (tareaReles i w) <> relay2 (tareaReles i w))
  /\ (forall w : World,
        relesComplementarios w ->
        (forall i, relesComplementarios (loop i w))
        /\ (forall event a, relesComplementarios (btCallback event a w))
        /\ relesComplementarios (toggleBluetooth w)
        /\ (forall despertar a, relesComplementarios (gestionarModoEnergia despertar a w))
        /\ (forall a, relesComplementarios (enviarReporteEstado a w)))
  /\ (forall w : World,
        reachable w -> relesComplementarios w /\ relay1 w <> relay2 w).
Proof.
  split; [|split; [|split]].
  - intros pins mhz stored i. apply reachable_inv. constructor.
  - intros i w H. destruct (tareaReles_fires i w H) as (_ & _ & Hc).
    split; [assumption|apply complementarios_distintos; assumption].
  - intros w H. split; [|split; [|split; [|split]]].
    + intros i; apply loop_inv; assumption.
    + intros event a; eapply mismosReles_inv; [apply btCallback_reles|assumption].
    + eapply mismosReles_inv; [apply toggleBluetooth_reles|assumption].
    + intros d a; eapply mismosReles_inv; [apply gestionarModoEnergia_reles|assumption].
    + intros a; eapply mismosReles_inv; [apply enviarReporteEstado_reles|assumption].
  - intros w H. pose proof (reachable_inv w H) as Hc.
    split; [assumption|apply complementarios_distintos; assumption].
Qed.

(** C10: whatever the reset state of the pins and the clock, the stored
    calibration and what setup() meets on the way, it ends with
    pantallaEncendida = true, sistemaEstado = false, btActivo = false,
    estadoRele = false, relay pin 1 LOW and relay pin 2 HIGH. *)
Theorem C10_setup_ends_in_fixed_state
  (pins : Z -> Level) (mhz : Z) (stored : option (list Byte.byte)) (i : SetupIn) :
  let w := setup i (powerOn pins mhz stored) in
  pantallaEncendida w = true
  /\ sistemaEstado w = false
  /\ btActivo w = false
  /\ estadoRele w = false
  /\ gpio w PIN_RELE1 = LOW
  /\ gpio w PIN_RELE2 = HIGH.
Proof.
  destruct (setup_estado pins mhz stored i) as (H1 & H2 & H3 & H4 & H5 & H6 & _).
  cbv zeta; repeat split; assumption.
Qed.

(** ** Power modes *)

Lemma dormir_efecto (a : Ambient) (w : World) :
  let w' := gestionarModoEnergia false a w in
  backlight w' = LOW
  /\ displayCommands w' = displayCommands w ++ [0x10]
  /\ cpuMHz w' = (if btActivo w then 160 else 80)
  /\ pantallaEncendida w' = false.
Proof.
  destruct w as [s p b lr lt e g c r m f tr].
  unfold displayCommands, history.
  destruct b; cbn; rewrite !flat_map_app; cbn; rewrite !app_nil_r; repeat split.
Qed.

Lemma despertar_efecto (a : Ambient) (w : World) :
  let w' := gestionarModoEnergia true a w in
  backlight w' = LOW /\ cpuMHz w' = 240 /\ pantallaEncendida w' = true.
Proof.
  destruct w as [s p b lr lt e g c r m f tr]; repeat split.
Qed.

(** C2, as the code has it: going to sleep sends command 0x10, picks 160 MHz
    with Bluetooth on and 80 MHz with it off and clears pantallaEncendida,
    but it writes LOW to the backlight pin, the very level that waking up
    and setup() write: the backlight output after sleeping equals the one
    after waking. *)
Theorem C2_sleep_leaves_backlight_at_wake_level
  (pins : Z -> Level) (mhz : Z) (stored : option (list Byte.byte)) (i : SetupIn)
  (a : Ambient) (w : World) :
  backlight (gestionarModoEnergia false a w) = backlight (gestionarModoEnergia true a w)
  /\ backlight (gestionarModoEnergia false a w) = backlight (setup i (powerOn pins mhz stored))
  /\ backlight (gestionarModoEnergia false a w) = LOW
  /\ displayCommands (gestionarModoEnergia false a w) = displayCommands w ++ [0x10]
  /\ cpuMHz (gestionarModoEnergia false a w) = (if btActivo w then 160 else 80)
  /\ pantallaEncendida (gestionarModoEnergia false a w) = false.
Proof.
  destruct (dormir_efecto a w) as (H1 & H2 & H3 & H4).
  destruct (despertar_efecto a w) as (H5 & _).
  assert (Hs : backlight (setup i (powerOn pins mhz stored)) = LOW)
    by apply (setup_estado pins mhz stored i).
  rewrite H1, H5, Hs. repeat split; assumption.
Qed.

(** C8: gestionarModoEnergia, either way, keeps sistemaEstado, btActivo,
    estadoRele, both timestamps, the Bluetooth link, the stored calibration
    and every pin but the backlight; so sleeping and then waking up gives
    back the sistemaEstado the panel had. *)
Theorem C8_power_transitions_keep_touch_output
  (a a' : Ambient) (w : World) :
  sistemaEstado (gestionarModoEnergia true a' (gestionarModoEnergia false a w)) = sistemaEstado w
  /\ pantallaEncendida (gestionarModoEnergia true a' (gestionarModoEnergia false a w)) = true
  /\ (forall despertar : bool,
        let w' := gestionarModoEnergia despertar a w in
        sistemaEstado w' = sistemaEstado w
        /\ btActivo w' = btActivo w
        /\ estadoRele w' = estadoRele w
        /\ lastRelayMillis w' = lastRelayMillis w
        /\ lastTempMillis w' = lastTempMillis w
        /\ btRunning w' = btRunning w
        /\ fsMounted w' = fsMounted w
        /\ calFile w' = calFile w
        /\ (forall pin, pin <> PIN_BL -> gpio w' pin = gpio w pin)).
Proof.
  destruct w as [s p b lr lt e g c r m f tr].
  split; [destruct b; reflexivity|]. split; [destruct b; reflexivity|].
  intros d; destruct d, b; repeat split;
    intros pin Hp; apply Z.eqb_neq in Hp;
    change ((if pin =? PIN_BL then LOW else g pin) = g pin); rewrite Hp; reflexivity.
Qed.

(** ** Bluetooth *)

(** C9: toggleBluetooth sets the clock to 240 MHz when it turns Bluetooth
    on and leaves the clock alone when it turns Bluetooth off; the display
    stays as it was, so a sleeping panel whose clock was lowered to 80 MHz
    runs at 240 MHz once Bluetooth is switched on, and one that fell asleep
    at 160 MHz with Bluetooth on stays at 160 MHz when it is switched off. *)
Theorem C9_enabling_bluetooth_raises_clock (a : Ambient) (w : World) :
  cpuMHz (toggleBluetooth w) = (if btActivo w then cpuMHz w else 240)
  /\ btRunning (toggleBluetooth w) = negb (btActivo w)
  /\ pantallaEncendida (toggleBluetooth w) = pantallaEncendida w
  /\ cpuMHz (gestionarModoEnergia false a w) = (if btActivo w then 160 else 80)
  /\ cpuMHz (toggleBluetooth (gestionarModoEnergia false a w))
     = (if btActivo w then 160 else 240)
  /\ pantallaEncendida (toggleBluetooth (gestionarModoEnergia false a w)) = false.
Proof.
  destruct w as [s p b lr lt e g c r m f tr].
  destruct b, p; repeat split.
Qed.

(** C7, amended: two runs of toggleBluetooth give btActivo its value back
    and leave the Bluetooth link running exactly when that value is true:
    stopped if it started from off, started if it started from on. *)
Theorem C7_double_toggle_restores_wireless (w : World) :
  btActivo (toggleBluetooth (toggleBluetooth w)) = btActivo w
  /\ btRunning (toggleBluetooth (toggleBluetooth w)) = btActivo w
  /\ (btActivo w = false -> btRunning (toggleBluetooth (toggleBluetooth w)) = false).
Proof.
  destruct w as [s p b lr lt e g c r m f tr].
  destruct b, p; repeat split; intros; discriminate.
Qed.

(** ** The touch router *)

Lemma inStatusRegion_spec (x y : Z) : inStatusRegion x y = true <-> y < 40 /\ 180 < x.
Proof. unfold inStatusRegion; rewrite andb_true_iff, Z.ltb_lt, Z.gtb_lt; reflexivity. Qed.

Lemma inRightButton_spec (x y : Z) :
  inRightButton x y = true <-> 125 < x < 230 /\ 250 < y < 310.
Proof.
  unfold inRightButton, btn2X, btnW, btnY, btnH.
  rewrite !andb_true_iff, !Z.ltb_lt, !Z.gtb_lt; simpl; lia.
Qed.

Lemma not_true_false (b : bool) (P : Prop) : (b = true <-> P) -> ~ P -> b = false.
Proof. destruct b; intuition congruence. Qed.

(** C3: a touch with y < 40 and x > 180 runs toggleBluetooth whether the
    display is on or off; any other touch on a sleeping display wakes it
    when it falls strictly inside the right-hand button (125 < x < 230,
    250 < y < 310) and otherwise leaves the whole world as it was. *)
Theorem C3_touch_routing_status_region_and_sleep (i : LoopIn) (x y : Z) (w : World) :
  (y < 40 /\ 180 < x ->
     resolveAction (pantallaEncendida w) x y = ToggleWireless
     /\ tareaTactil i x y w = delay 300 (toggleBluetooth w))
  /\ (~ (y < 40 /\ 180 < x) -> pantallaEncendida w = false ->
        (125 < x < 230 /\ 250 < y < 310 ->
           resolveAction (pantallaEncendida w) x y = WakeDisplay
           /\ tareaTactil i x y w = delay 300 (gestionarModoEnergia true (ambient i) w))
        /\ (~ (125 < x < 230 /\ 250 < y < 310) ->
           resolveAction (pantallaEncendida w) x y = NoAction
           /\ tareaTactil i x y w = w)).
Proof.
  rewrite (tareaTactil_router i x y w).
  split.
  - intros H; apply inStatusRegion_spec in H.
    unfold resolveAction; rewrite H; split; reflexivity.
  - intros H Hs; apply (not_true_false _ _ (inStatusRegion_spec x y)) in H.
    unfold resolveAction; rewrite H, Hs; cbn [negb].
    split; intros Hr.
    + apply inRightButton_spec in Hr; rewrite Hr; split; reflexivity.
    + apply (not_true_false _ _ (inRightButton_spec x y)) in Hr; rewrite Hr; split; reflexivity.
Qed.

(** ** The report *)

Lemma append_assoc (a b c : string) : (a +++ b) +++ c = a +++ (b +++ c).
Proof. induction a as [|ch a IH]; simpl; [reflexivity|rewrite IH; reflexivity]. Qed.

Lemma lines_nonempty (s : string) : lines s <> [].
Proof.
  induction s as [|c s IH]; simpl; [discriminate|].
  destruct (Ascii.eqb c nl); [discriminate|].
  destruct (lines s); discriminate.
Qed.

Lemma lines_append (a b : string) :
  oneLine a = true ->
  lines (a +++ b) = match lines b with [] => [a] | l :: ls => (a +++ l) :: ls end.
Proof.
  induction a as [|c a IH]; simpl.
  - intros _. destruct (lines b) eqn:E; [destruct (lines_nonempty b E)|reflexivity].
  - rewrite andb_true_iff, negb_true_iff; intros [Hc Ha].
    rewrite Hc, (IH Ha). destruct (lines b); reflexivity.
Qed.

Lemma lines_line (a b : string) :
  oneLine a = true -> lines (a +++ String nl b) = a :: lines b.
Proof.
  induction a as [|c a IH]; simpl; [reflexivity|].
  rewrite andb_true_iff, negb_true_iff; intros [Hc Ha].
  rewrite Hc, (IH Ha); reflexivity.
Qed.

Lemma oneLine_campoSensor (t : Temp) :
  (isDisconnected t = false -> oneLine (String1 t) = true) ->
  oneLine (campoSensor t) = true.
Proof.
  unfold campoSensor; destruct (isDisconnected t); [reflexivity|].
  intros H; specialize (H eq_refl).
  induction (String1 t) as [|c s IH]; simpl in *; [reflexivity|].
  apply andb_true_iff in H; destruct H as [-> H]; simpl; auto.
Qed.

Lemma oneLine_append (a b : string) : oneLine (a +++ b) = oneLine a && oneLine b.
Proof.
  induction a as [|c a IH]; simpl; [reflexivity|].
  rewrite IH, andb_assoc; reflexivity.
Qed.

(** The report, line by line. *)
Lemma reporte_por_lineas (rele sistema pantalla : bool) (t1 t2 : Temp) :
  reporte rele sistema pantalla t1 t2
  = "" +++ String nl
    ("--- REPORTE ESP32 ---" +++ String nl
    (("S1: " +++ campoSensor t1 +++ " | S2: " +++ campoSensor t2) +++ String nl
    (("Reles: K1=" +++ (if rele then "ON" else "OFF")
        +++ " K2=" +++ (if rele then "OFF" else "ON")) +++ String nl
    (("Tactil: " +++ (if sistema then "ENCENDIDO" else "APAGADO")) +++ String nl
    (("Pantalla: " +++ (if pantalla then "ON" else "SLEEP")) +++ String nl
    ("---------------------" +++ String nl ""))))))%string.
Proof.
  unfold reporte, NL. fold (campoSensor t1) (campoSensor t2).
  destruct rele, sistema, pantalla; rewrite !append_assoc; reflexivity.
Qed.

Lemma reporte_lines (rele sistema pantalla : bool) (t1 t2 : Temp) :
  oneLine (campoSensor t1) = true -> oneLine (campoSensor t2) = true ->
  lines (reporte rele sistema pantalla t1 t2)
  = [ "";
      "--- REPORTE ESP32 ---";
      "S1: " +++ campoSensor t1 +++ " | S2: " +++ campoSensor t2;
      "Reles: K1=" +++ (if rele then "ON" else "OFF")
        +++ " K2=" +++ (if rele then "OFF" else "ON");
      "Tactil: " +++ (if sistema then "ENCENDIDO" else "APAGADO");
      "Pantalla: " +++ (if pantalla then "ON" else "SLEEP");
      "---------------------";
      "" ].
Proof.
  intros H1 H2. rewrite reporte_por_lineas.
  rewrite !lines_line; [reflexivity|..];
    rewrite ?oneLine_append, ?H1, ?H2; destruct rele, sistema, pantalla; reflexivity.
Qed.

Lemma enviarReporteEstado_emite (a : Ambient) (w : World) :
  let text := reporte (estadoRele w) (sistemaEstado w) (pantallaEncendida w)
                (tempC0 a) (tempC1 a) in
  consoleReports (enviarReporteEstado a w) = consoleReports w ++ [text]
  /\ wirelessReports (enviarReporteEstado a w)
     = wirelessReports w ++ (if hasClient a then [text] else []).
Proof.
  destruct w as [s p b lr lt e g c r m f tr], a as [t1 t2 h].
  unfold consoleReports, wirelessReports, history, enviarReporteEstado.
  cbn [hasClient tempC0 tempC1 estadoRele sistemaEstado pantallaEncendida].
  destruct h; cbn [emit trace rev]; rewrite !flat_map_app; cbn [flat_map Serial_printArg
    SerialBT_printArg app]; rewrite ?app_nil_r; split; reflexivity.
Qed.

(** C4, amended: the text of the report depends on estadoRele,
    sistemaEstado, pantallaEncendida and the two readings alone, so equal
    state and readings give the same bytes; it goes to the console always
    and to Bluetooth when a client is connected; and it is laid out as an
    empty line, a title, ONE line with both sensor fields separated by a
    bar (each field is ERR for a disconnected probe, else String(t, 1)
    followed by C), one line with both relays, one for the touch output,
    one for the display and a closing rule. *)
Theorem C4_report_layout_and_determinism (a a' : Ambient) (w w' : World) :
  let text := reporte (estadoRele w) (sistemaEstado w) (pantallaEncendida w)
                (tempC0 a) (tempC1 a) in
  consoleReports (enviarReporteEstado a w) = consoleReports w ++ [text]
  /\ wirelessReports (enviarReporteEstado a w)
     = wirelessReports w ++ (if hasClient a then [text] else [])
  /\ (estadoRele w' = estadoRele w -> sistemaEstado w' = sistemaEstado w ->
      pantallaEncendida w' = pantallaEncendida w ->
      tempC0 a' = tempC0 a -> tempC1 a' = tempC1 a ->
      consoleReports (enviarReporteEstado a' w') = consoleReports w' ++ [text])
  /\ ((isDisconnected (tempC0 a) = false -> oneLine (String1 (tempC0 a)) = true) ->
      (isDisconnected (tempC1 a) = false -> oneLine (String1 (tempC1 a)) = true) ->
      lines text
      = [ "";
          "--- REPORTE ESP32 ---";
          "S1: " +++ campoSensor (tempC0 a) +++ " | S2: " +++ campoSensor (tempC1 a);
          "Reles: K1=" +++ (if estadoRele w then "ON" else "OFF")
            +++ " K2=" +++ (if estadoRele w then "OFF" else "ON");
          "Tactil: " +++ (if sistemaEstado w then "ENCENDIDO" else "APAGADO");
          "Pantalla: " +++ (if pantallaEncendida w then "ON" else "SLEEP");
          "---------------------";
          "" ]
      /\ sensorLines text
         = [ "S1: " +++ campoSensor (tempC0 a) +++ " | S2: " +++ campoSensor (tempC1 a) ])
  /\ (forall t : Temp,
        (isDisconnected t = true -> campoSensor t = "ERR")
        /\ (isDisconnected t = false -> campoSensor t = String1 t +++ "C")).
Proof.
  intros text.
  destruct (enviarReporteEstado_emite a w) as [Hc Hb].
  split; [exact Hc|]. split; [exact Hb|]. split; [|split].
  - intros H1 H2 H3 H4 H5.
    destruct (enviarReporteEstado_emite a' w') as [Hc' _].
    rewrite Hc'; unfold text; rewrite H1, H2, H3, H4, H5; reflexivity.
  - intros H1 H2.
    assert (L : lines text = _)
      by (apply reporte_lines; apply oneLine_campoSensor; assumption).
    split; [exact L|].
    unfold sensorLines; rewrite L.
    destruct (estadoRele w), (sistemaEstado w), (pantallaEncendida w); reflexivity.
  - intros t; unfold campoSensor; split; intros ->; reflexivity.
Qed.

(** ** Calibration at boot *)

Lemma checkTrasLeer_completo (slot : option nat) (c : list Byte.byte) :
  (14 <= List.length c)%nat -> checkTrasLeer slot c = true.
Proof.
  intros H. unfold checkTrasLeer, readBytes. rewrite length_firstn.
  replace (Nat.min 14 (List.length c)) with 14%nat by lia. reflexivity.
Qed.

Lemma checkTrasLeer_corto (slot : option nat) (c : list Byte.byte) :
  (List.length c <= 10)%nat -> checkTrasLeer slot c = false.
Proof.
  intros H. unfold checkTrasLeer, readBytes. rewrite length_firstn.
  destruct (Nat.eqb (Nat.min 14 (List.length c)) 14) eqn:E;
    [apply Nat.eqb_eq in E; lia|].
  destruct slot as [k|]; [|reflexivity].
  assert (L : Nat.ltb (10 + k) (Nat.min 14 (List.length c)) = false)
    by (apply Nat.ltb_ge; lia).
  rewrite L; reflexivity.
Qed.

Lemma byteZ_byteOfZ (z : Z) : byteZ (byteOfZ z) = z mod 256.
Proof.
  unfold byteZ, byteOfZ.
  assert (R : 0 <= z mod 256 < 256) by (apply Z.mod_pos_bound; lia).
  destruct (Byte.of_N (Z.to_N (z mod 256))) as [b|] eqn:E.
  - apply Byte.to_of_N in E. rewrite E. apply Z2N.id; lia.
  - apply Byte.of_N_None_iff in E. lia.
Qed.

(** The words written to the file are the words read back from it. *)
Lemma palabras_octetos (ws : list Z) (rest : list Byte.byte) :
  Forall (fun v => 0 <= v < 65536) ws ->
  palabras (octetos ws) = ws
  /\ List.length (octetos ws) = (2 * List.length ws)%nat
  /\ firstn (2 * List.length ws) (octetos ws ++ rest) = octetos ws.
Proof.
  intros H.
  assert (P : palabras (octetos ws) = ws).
  { unfold octetos. induction H as [|v ws Hv _ IH]; [reflexivity|].
    cbn [flat_map app palabras]. rewrite IH, !byteZ_byteOfZ. f_equal.
    rewrite (Z.mod_small (v / 256)).
    - pose proof (Z.div_mod v 256 ltac:(lia)). lia.
    - split; [apply Z.div_pos; lia|apply Z.div_lt_upper_bound; lia]. }
  assert (L : List.length (octetos ws) = (2 * List.length ws)%nat).
  { unfold octetos. clear H P. induction ws as [|v ws IH]; simpl in *; [reflexivity|].
    rewrite IH; lia. }
  split; [exact P|split; [exact L|]].
  rewrite <- L. rewrite firstn_app, firstn_all, Nat.sub_diag.
  simpl; apply app_nil_r.
Qed.

(** The stored calibration is taken when [check] comes out set on a mounted
    store with a silent serial port; setup() calibrates otherwise and
    writes the five words and the four bytes after them. *)
Lemma setup_calibracion (pins : Z -> Level) (mhz : Z) (stored : option (list Byte.byte))
  (i : SetupIn) :
  let w := setup i (powerOn pins mhz stored) in
  let usable :=
    spiffsBegin i
    && match stored with Some c => checkTrasLeer (checkSlot i) c | None => false end
    && (serialAvailable i =? 0) in
  acquisitions w = (if usable then 0%nat else 1%nat)
  /\ loadedCalibrations w
     = (if usable
        then match stored with
             | Some c => [palabras (firstn 10 (readBytes 14 c))]
             | None => []
             end
        else [])
  /\ calFile w
     = (if usable then stored
        else if spiffsBegin i then Some (octetos (acquired i) ++ spill i) else stored).
Proof.
  destruct i as [sb sa slot acq sp amb].
  destruct sb, stored as [c|];
    cbn [spiffsBegin serialAvailable checkSlot acquired spill andb]; run;
    try (destruct (checkTrasLeer slot c); destruct (sa =? 0); run);
    repeat split.
Qed.





End Properties.

(** * On the bench

    The statements above at concrete boards, and the places where the
    sketch departs from what is written about it. *)

Lemma mundoArrancado_estado :
  lastRelayMillis mundoArrancado = 0
  /\ estadoRele mundoArrancado = false
  /\ btActivo mundoArrancado = false
  /\ pantallaEncendida mundoArrancado = true.
Proof. vm_compute; repeat split. Qed.

(** C1 at the bench: the relay block fired from the booted board, a pass of
    loop() on it, and the state reached after that pass. *)
Lemma C1_witness :
  relesComplementarios (tareaReles (pasada 3000 None) mundoArrancado)
  /\ relesComplementarios (loop (pasada 10 None) mundoArrancado)
  /\ relay1 (loop (pasada 3000 None) mundoArrancado)
     <> relay2 (loop (pasada 3000 None) mundoArrancado).
Proof.
  destruct (@C1_relay_outputs_complementary sondasDeBanco) as (H1 & H2 & H3 & H4).
  assert (R : reachable mundoArrancado) by apply reach_setup.
  split; [|split].
  - exact (proj1 (H2 (pasada 3000 None) mundoArrancado eq_refl)).
  - exact (proj1 (H3 mundoArrancado (H1 pinesBajos 160 None arranqueNormal))
             (pasada 10 None)).
  - exact (proj2 (H4 _ (reach_loop (pasada 3000 None) mundoArrancado R))).
Defined.

(** C3 at the bench: the status corner on a lit and on a sleeping panel,
    the wake button and a touch elsewhere on a sleeping panel. *)
Lemma C3_witness :
  tareaTactil (pasada 0 None) 200 10 mundoArrancado = delay 300 (toggleBluetooth mundoArrancado)
  /\ tareaTactil (pasada 0 None) 200 10 mundoDormido = delay 300 (toggleBluetooth mundoDormido)
  /\ tareaTactil (pasada 0 None) 150 280 mundoDormido
     = delay 300 (gestionarModoEnergia true sinSondas mundoDormido)
  /\ tareaTactil (pasada 0 None) 50 100 mundoDormido = mundoDormido.
Proof.
  pose proof (C3_touch_routing_status_region_and_sleep (pasada 0 None) 200 10 mundoArrancado)
    as [A _].
  pose proof (C3_touch_routing_status_region_and_sleep (pasada 0 None) 200 10 mundoDormido)
    as [B _].
  pose proof (C3_touch_routing_status_region_and_sleep (pasada 0 None) 150 280 mundoDormido)
    as [_ C].
  pose proof (C3_touch_routing_status_region_and_sleep (pasada 0 None) 50 100 mundoDormido)
    as [_ D].
  split; [apply A; lia|]. split; [apply B; lia|]. split.
  - apply C; [lia|reflexivity|lia].
  - apply D; [lia|reflexivity|lia].
Defined.

(** C4, as written, fails: the report printed for two connected probes has
    a single line that carries a sensor field, not two. *)
Lemma C4_counterexample :
  consoleReports (enviarReporteEstado dosSondas mundoArrancado)
  = [ reporteDeBanco ]
  /\ sensorLines reporteDeBanco
     = [ "S1: 21.5C | S2: -3.0C" ]
  /\ List.length (sensorLines reporteDeBanco) <> 2%nat.
Proof. vm_compute; repeat split; discriminate. Qed.

Lemma C4_witness :
  consoleReports (enviarReporteEstado dosSondas mundoArrancado)
  = [ reporteDeBanco ]
  /\ lines reporteDeBanco
     = [ ""; "--- REPORTE ESP32 ---"; "S1: 21.5C | S2: -3.0C"; "Reles: K1=OFF K2=ON";
         "Tactil: APAGADO"; "Pantalla: ON"; "---------------------"; "" ].
Proof.
  destruct (C4_report_layout_and_determinism dosSondas dosSondas mundoArrancado mundoArrancado)
    as (_ & _ & H3 & H4 & _).
  split.
  - apply H3; reflexivity.
  - apply H4; intros _; reflexivity.
Defined.

(** C5 at the bench: the booted board has lastRelayMillis = 0; a pass at
    2999 ms does nothing, a pass at 3000 ms fires, and after a late firing
    at 10000 ms a pass at 12999 ms does nothing while one at 13000 ms fires. *)
Lemma C5_witness :
  estadoRele (loop (pasada 2999 None) mundoArrancado) = false
  /\ estadoRele (loop (pasada 3000 None) mundoArrancado) = true
  /\ estadoRele (loop (pasada 12999 None) (loop (pasada 10000 None) mundoArrancado)) = true
  /\ lastRelayMillis (loop (pasada 12999 None) (loop (pasada 10000 None) mundoArrancado))
     = 10000
  /\ estadoRele (loop (pasada 13000 None) (loop (pasada 10000 None) mundoArrancado)) = false.
Proof.
  destruct mundoArrancado_estado as (Hl & He & _).
  pose proof (C5_relay_task_fires_every_3000ms (pasada 2999 None) mundoArrancado) as A.
  pose proof (C5_relay_task_fires_every_3000ms (pasada 3000 None) mundoArrancado) as B.
  pose proof (C5_relay_task_fires_every_3000ms (pasada 10000 None) mundoArrancado) as C.
  cbv zeta in A, B, C.
  destruct A as (_ & _ & _ & A & _).
  destruct B as (_ & _ & _ & _ & B & _).
  destruct C as (_ & _ & _ & _ & _ & C).
  rewrite Hl in A, B. rewrite He in A, B, C.
  split; [apply A; [lia|vm_compute; reflexivity|reflexivity]|].
  split; [apply B; [lia|vm_compute; reflexivity|reflexivity]|].
  assert (D : 3000 <= wrap32 (millisRelayCheck (pasada 10000 None)
                                - lastRelayMillis mundoArrancado))
    by (rewrite Hl; vm_compute; discriminate).
  destruct (C (pasada 12999 None) D) as [C1 _];
    [cbn; lia|vm_compute; reflexivity|].
  destruct (C (pasada 13000 None) D) as [_ C2];
    [cbn; lia|vm_compute; reflexivity|].
  destruct C1 as [C1 C1']; [cbn; lia|].
  destruct C2 as [C2 _]; [cbn; lia|].
  split; [exact C1|]. split; [exact C1'|exact C2].
Defined.



(** C7, as written, fails: with Bluetooth switched on by a touch on the
    status corner, two more toggles leave btActivo on and the Bluetooth
    link started, not stopped. *)
Lemma C7_counterexample :
  btActivo mundoConBluetooth = true
  /\ btActivo (toggleBluetooth (toggleBluetooth mundoConBluetooth)) = true
  /\ btRunning (toggleBluetooth (toggleBluetooth mundoConBluetooth)) = true
  /\ btRunning (loop (pasada 900 (Some (200, 10)))
                  (loop (pasada 500 (Some (200, 10))) mundoConBluetooth))
     = true.
Proof. vm_compute; repeat split. Qed.

Lemma C7_witness :
  btActivo mundoArrancado = false
  /\ btRunning (toggleBluetooth (toggleBluetooth mundoArrancado)) = false.
Proof.
  split; [reflexivity|].
  apply (proj2 (proj2 (C7_double_toggle_restores_wireless mundoArrancado))).
  reflexivity.
Defined.

(** C8 at the bench: relay pin 1 is not the backlight pin and keeps its
    level across going to sleep. *)
Lemma C8_witness :
  PIN_RELE1 <> PIN_BL
  /\ gpio (gestionarModoEnergia false sinSondas mundoArrancado) PIN_RELE1
     = gpio mundoArrancado PIN_RELE1.
Proof.
  assert (N : PIN_RELE1 <> PIN_BL) by (unfold PIN_RELE1, PIN_BL; lia).
  split; [exact N|].
  destruct (C8_power_transitions_keep_touch_output sinSondas sinSondas mundoArrancado)
    as (_ & _ & H).
  destruct (H false) as (_ & _ & _ & _ & _ & _ & _ & _ & Hp).
  exact (Hp PIN_RELE1 N).
Defined.

(** Inside a firing the two pins are written one after the other: on the
    booted board, once estadoRele is inverted and pin 1 written, both pins
    are HIGH until pin 2 is written. *)
Remark tareaReles_entre_escrituras :
  relay1 (digitalWrite PIN_RELE1 (levelOfBool true) (set_estadoRele true mundoArrancado)) = HIGH
  /\ relay2 (digitalWrite PIN_RELE1 (levelOfBool true) (set_estadoRele true mundoArrancado)) = HIGH.
Proof. vm_compute; split; reflexivity. Qed.

(** * Further properties of the sketch *)

Section FurtherProperties.
Context {T : Thermometer}.

(** ** Touch on a lit panel *)

Lemma inLeftButton_spec (x y : Z) :
  inLeftButton x y = true <-> 10 < x < 115 /\ 250 < y < 310.
Proof.
  unfold inLeftButton, btn1X, btnW, btnY, btnH.
  rewrite !andb_true_iff, !Z.ltb_lt, !Z.gtb_lt; simpl; lia.
Qed.

Lemma consoleReports_rev (w : World) :
  consoleReports w = rev (flat_map Serial_printArg (trace w)).
Proof.
  unfold consoleReports, history.
  induction (trace w) as [|e tr IH]; [reflexivity|].
  simpl; rewrite flat_map_app, rev_app_distr, IH; simpl; rewrite app_nil_r.
  destruct e; reflexivity.
Qed.

Lemma wirelessReports_rev (w : World) :
  wirelessReports w = rev (flat_map SerialBT_printArg (trace w)).
Proof.
  unfold wirelessReports, history.
  induction (trace w) as [|e tr IH]; [reflexivity|].
  simpl; rewrite flat_map_app, rev_app_distr, IH; simpl; rewrite app_nil_r.
  destruct e; reflexivity.
Qed.

Lemma displayCommands_rev (w : World) :
  displayCommands w = rev (flat_map writecommandArg (trace w)).
Proof.
  unfold displayCommands, history.
  induction (trace w) as [|e tr IH]; [reflexivity|].
  simpl; rewrite flat_map_app, rev_app_distr, IH; simpl; rewrite app_nil_r.
  destruct e as [| | | | | | | | | | | | | |c]; try reflexivity.
  destruct c; reflexivity.
Qed.

(** X1: on a lit panel a touch strictly inside the left button inverts
    sistemaEstado, prints exactly one report, which already shows the new
    value, and leaves the other globals, the pins, the clock and the
    Bluetooth link alone. *)
Theorem X1_left_button_toggles_output (i : LoopIn) (x y : Z) (w : World) :
  pantallaEncendida w = true -> 10 < x < 115 -> 250 < y < 310 ->
  let w' := tareaTactil i x y w in
  sistemaEstado w' = negb (sistemaEstado w)
  /\ consoleReports w'
     = consoleReports w
       ++ [reporte (estadoRele w) (negb (sistemaEstado w)) true
             (tempC0 (ambient i)) (tempC1 (ambient i))]
  /\ wirelessReports w'
     = wirelessReports w
       ++ (if hasClient (ambient i)
           then [reporte (estadoRele w) (negb (sistemaEstado w)) true
                   (tempC0 (ambient i)) (tempC1 (ambient i))]
           else [])
  /\ pantallaEncendida w' = true
  /\ btActivo w' = btActivo w
  /\ estadoRele w' = estadoRele w
  /\ lastRelayMillis w' = lastRelayMillis w
  /\ lastTempMillis w' = lastTempMillis w
  /\ cpuMHz w' = cpuMHz w
  /\ btRunning w' = btRunning w
  /\ (forall pin, gpio w' pin = gpio w pin).
Proof.
  intros Hp Hx Hy w'. subst w'.
  rewrite tareaTactil_router, Hp.
  assert (Hs : inStatusRegion x y = false).
  { apply (not_true_false _ _ (inStatusRegion_spec x y)); lia. }
  assert (Hl : inLeftButton x y = true) by (apply inLeftButton_spec; lia).
  unfold resolveAction; rewrite Hs, Hl; cbn [negb].
  rewrite !consoleReports_rev, !wirelessReports_rev.
  destruct w as [s p b lr lt e g c r m f tr]; cbn in Hp; subst p.
  destruct (ambient i) as [t1 t2 h].
  destruct h, s; cbn; rewrite ?app_nil_r; repeat split.
Qed.

Lemma tactil_dormir (i : LoopIn) (x y : Z) (w : World) :
  pantallaEncendida w = true -> 125 < x < 230 -> 250 < y < 310 ->
  tareaTactil i x y w = gestionarModoEnergia false (ambient i) w.
Proof.
  intros Hp Hx Hy. rewrite tareaTactil_router, Hp. unfold resolveAction; cbn [negb].
  assert (Hs : inStatusRegion x y = false)
    by (apply (not_true_false _ _ (inStatusRegion_spec x y)); lia).
  assert (Hl : inLeftButton x y = false)
    by (apply (not_true_false _ _ (inLeftButton_spec x y)); lia).
  assert (Hr : inRightButton x y = true) by (apply inRightButton_spec; lia).
  rewrite Hs, Hl, Hr; reflexivity.
Qed.

Lemma tactil_despertar (i : LoopIn) (x y : Z) (w : World) :
  pantallaEncendida w = false -> 125 < x < 230 -> 250 < y < 310 ->
  tareaTactil i x y w = delay 300 (gestionarModoEnergia true (ambient i) w).
Proof.
  intros Hp Hx Hy. rewrite tareaTactil_router, Hp. unfold resolveAction; cbn [negb].
  assert (Hs : inStatusRegion x y = false)
    by (apply (not_true_false _ _ (inStatusRegion_spec x y)); lia).
  assert (Hr : inRightButton x y = true) by (apply inRightButton_spec; lia).
  rewrite Hs, Hr; reflexivity.
Qed.

(** X2: on a lit panel a touch strictly inside the right button puts the
    panel to sleep, and a touch outside the status corner and outside both
    buttons (their edges and the gap between them included) changes
    nothing at all. *)
Theorem X2_right_button_sleeps_elsewhere_nothing (i : LoopIn) (x y : Z) (w : World) :
  pantallaEncendida w = true ->
  (125 < x < 230 /\ 250 < y < 310 ->
     tareaTactil i x y w = gestionarModoEnergia false (ambient i) w
     /\ pantallaEncendida (tareaTactil i x y w) = false)
  /\ (~ (y < 40 /\ 180 < x) -> ~ (10 < x < 115 /\ 250 < y < 310) ->
      ~ (125 < x < 230 /\ 250 < y < 310) ->
      tareaTactil i x y w = w).
Proof.
  intros Hp. split.
  - intros [Hx Hy]. rewrite (tactil_dormir i x y w Hp Hx Hy).
    split; [reflexivity|].
    destruct (dormir_efecto (ambient i) w) as (_ & _ & _ & H); exact H.
  - intros Hs Hl Hr. rewrite tareaTactil_router, Hp. unfold resolveAction; cbn [negb].
    apply (not_true_false _ _ (inStatusRegion_spec x y)) in Hs.
    apply (not_true_false _ _ (inLeftButton_spec x y)) in Hl.
    apply (not_true_false _ _ (inRightButton_spec x y)) in Hr.
    rewrite Hs, Hl, Hr; reflexivity.
Qed.

(** X3: the sleep button and the wake button are the same spot: two touches
    there on a lit panel send the display commands 0x10 then 0x11, end at
    240 MHz and give back all six globals. *)
Theorem X3_right_button_twice_round_trip (i j : LoopIn) (x y x' y' : Z) (w : World) :
  pantallaEncendida w = true ->
  125 < x < 230 -> 250 < y < 310 -> 125 < x' < 230 -> 250 < y' < 310 ->
  let w' := tareaTactil j x' y' (tareaTactil i x y w) in
  globales w' = globales w
  /\ cpuMHz w' = 240
  /\ btRunning w' = btRunning w
  /\ displayCommands w' = displayCommands w ++ [0x10; 0x11].
Proof.
  intros Hp Hx Hy Hx' Hy' w'. subst w'.
  rewrite (tactil_dormir i x y w Hp Hx Hy).
  rewrite (tactil_despertar j x' y' _
             (proj2 (proj2 (proj2 (dormir_efecto (ambient i) w)))) Hx' Hy').
  rewrite !displayCommands_rev.
  destruct w as [s p b lr lt e g c r m f tr]; cbn in Hp; subst p.
  destruct b; cbn; rewrite <- ?app_assoc; repeat split.
Qed.

(** ** The periodic blocks *)

(** A pass of loop() is its three leading blocks followed by the touch. *)
Lemma loop_tactil (i : LoopIn) (w : World) :
  loop i w
  = match touch i with
    | Some (x, y) =>
        performAction
          (resolveAction
             (pantallaEncendida (tareaReles i (tareaSensores i (escuchaBluetooth i w)))) x y)
          (ambient i) (tareaReles i (tareaSensores i (escuchaBluetooth i w)))
    | None => tareaReles i (tareaSensores i (escuchaBluetooth i w))
    end.
Proof.
  unfold loop. destruct (touch i) as [[x y]|]; [|reflexivity].
  apply tareaTactil_router.
Qed.

Lemma periodicas_efecto (i : LoopIn) (w : World) :
  let w1 := tareaReles i (tareaSensores i (escuchaBluetooth i w)) in
  sistemaEstado w1 = sistemaEstado w
  /\ pantallaEncendida w1 = pantallaEncendida w
  /\ btActivo w1 = btActivo w
  /\ cpuMHz w1 = cpuMHz w
  /\ btRunning w1 = btRunning w
  /\ backlight w1 = backlight w
  /\ lastTempMillis w1
     = (if sensorVencido (millisTempCheck i) w then millisTempSet i else lastTempMillis w)
  /\ conversionRequests w1
     = (conversionRequests w + if sensorVencido (millisTempCheck i) w then 1 else 0)%nat
  /\ (pantallaEncendida w = false -> displayCalls w1 = displayCalls w)
  /\ consoleReports w1 = consoleReports w
  /\ wirelessReports w1 = wirelessReports w.
Proof.
  cbv zeta. rewrite !consoleReports_rev, !wirelessReports_rev.
  unfold tareaReles, tareaSensores, escuchaBluetooth, sensorVencido.
  destruct w as [s p b lr lt e g c r m f tr]; cbn [btActivo lastTempMillis].
  destruct (b && btAvailable i); cbn [Serial_println_call emit lastTempMillis];
    destruct (wrap32 (millisTempCheck i - lt) >=? 2000);
    destruct p; cbn;
    destruct (wrap32 (millisRelayCheck i - lr) >=? 3000); cbn;
    rewrite ?Nat.add_0_r, ?Nat.add_1_r; repeat split; intros; discriminate.
Qed.

Lemma performAction_sensores (act : Action) (a : Ambient) (w : World) :
  lastTempMillis (performAction act a w) = lastTempMillis w
  /\ conversionRequests (performAction act a w) = conversionRequests w.
Proof.
  destruct w as [s p b lr lt e g c r m f tr], a as [t1 t2 h].
  destruct act, b, p, h; split; reflexivity.
Qed.

(** X4: a pass of loop() requests a temperature conversion exactly when the
    32-bit difference between millis() and lastTempMillis is at least
    2000, with the display on or off and whatever the relay block and the
    touch do in that pass; it then stores the fresh millis() reading.
    1999 ms after the last poll is too early, 2000 ms is due. *)
Theorem X4_sensor_poll_every_2000ms (i : LoopIn) (w : World) :
  let elapsed := wrap32 (millisTempCheck i - lastTempMillis w) in
  (2000 <= elapsed ->
     conversionRequests (loop i w) = S (conversionRequests w)
     /\ lastTempMillis (loop i w) = millisTempSet i)
  /\ (elapsed < 2000 ->
     conversionRequests (loop i w) = conversionRequests w
     /\ lastTempMillis (loop i w) = lastTempMillis w)
  /\ (0 <= lastTempMillis w -> lastTempMillis w + 2000 < 2 ^ 32 ->
      (millisTempCheck i = lastTempMillis w + 1999 ->
         conversionRequests (loop i w) = conversionRequests w)
      /\ (millisTempCheck i = lastTempMillis w + 2000 ->
         conversionRequests (loop i w) = S (conversionRequests w))).
Proof.
  intros elapsed.
  assert (E : conversionRequests (loop i w)
              = (conversionRequests w
                 + if sensorVencido (millisTempCheck i) w then 1 else 0)%nat
              /\ lastTempMillis (loop i w)
                 = (if sensorVencido (millisTempCheck i) w
                    then millisTempSet i else lastTempMillis w)).
  { rewrite loop_tactil.
    destruct (periodicas_efecto i w) as (_ & _ & _ & _ & _ & _ & H1 & H2 & _).
    destruct (touch i) as [[x y]|]; [|split; assumption].
    match goal with
    | |- context [performAction ?act ?a ?v] =>
        destruct (performAction_sensores act a v) as [-> ->]
    end.
    split; assumption. }
  destruct E as [Ec El]. unfold sensorVencido in Ec, El. fold elapsed in Ec, El.
  assert (Hdue : 2000 <= elapsed ->
            conversionRequests (loop i w) = S (conversionRequests w)
            /\ lastTempMillis (loop i w) = millisTempSet i).
  { intros H. apply Z.geb_le in H. rewrite H in Ec, El.
    rewrite Ec, El, Nat.add_1_r; split; reflexivity. }
  assert (Hearly : elapsed < 2000 ->
            conversionRequests (loop i w) = conversionRequests w
            /\ lastTempMillis (loop i w) = lastTempMillis w).
  { intros H. assert (H' : (elapsed >=? 2000) = false)
      by (rewrite Z.geb_leb; apply Z.leb_gt; exact H).
    rewrite H' in Ec, El. rewrite Ec, El, Nat.add_0_r; split; reflexivity. }
  split; [exact Hdue|]. split; [exact Hearly|].
  intros H0 H1; split; intros H2.
  - apply Hearly. unfold elapsed. rewrite wrap32_small; lia.
  - apply Hdue. unfold elapsed. rewrite wrap32_small; lia.
Qed.

Lemma wrap32_diferencia (last d : Z) :
  0 <= d < 2 ^ 32 -> wrap32 (wrap32 (last + d) - last) = d.
Proof.
  intros Hd. unfold wrap32.
  rewrite Zminus_mod_idemp_l.
  replace (last + d - last) with d by lia.
  apply Z.mod_small; exact Hd.
Qed.

(** X5: both schedules survive the overflow of the 32-bit millis()
    counter: if the counter reads (timestamp + d) mod 2^32, with d < 2^32
    the time really elapsed, the relay block inverts estadoRele exactly
    when d >= 3000 and the sensor block polls exactly when d >= 2000, also
    when the counter has wrapped past zero in between. *)
Theorem X5_schedules_survive_millis_overflow (i : LoopIn) (w : World) (d : Z) :
  0 <= d < 2 ^ 32 ->
  (millisRelayCheck i = wrap32 (lastRelayMillis w + d) ->
     estadoRele (loop i w) = (if 3000 <=? d then negb (estadoRele w) else estadoRele w))
  /\ (millisTempCheck i = wrap32 (lastTempMillis w + d) ->
     conversionRequests (loop i w)
     = (conversionRequests w + (if (2000 <=? d)%Z then 1 else 0))%nat).
Proof.
  intros Hd. split; intros Hm.
  - destruct (loop_reles i w) as [Hf Hi].
    assert (E : releVencido (millisRelayCheck i) w = (3000 <=? d)).
    { unfold releVencido. rewrite Hm, wrap32_diferencia by exact Hd. apply Z.geb_leb. }
    rewrite E in Hf, Hi.
    destruct (3000 <=? d); [apply Hf|apply Hi]; reflexivity.
  - rewrite loop_tactil.
    destruct (periodicas_efecto i w) as (_ & _ & _ & _ & _ & _ & _ & H2 & _).
    assert (E : sensorVencido (millisTempCheck i) w = (2000 <=? d)).
    { unfold sensorVencido. rewrite Hm, wrap32_diferencia by exact Hd. apply Z.geb_leb. }
    rewrite E in H2.
    destruct (touch i) as [[x y]|]; [|exact H2].
    match goal with
    | |- context [performAction ?act ?a ?v] =>
        destruct (performAction_sensores act a v) as [_ ->]
    end.
    exact H2.
Qed.

(** ** Invariants of the power and Bluetooth state *)

Lemma performAction_coherente (act : Action) (a : Ambient) (w : World) :
  enlaceCoherente w -> relojCoherente w -> backlight w = LOW ->
  enlaceCoherente (performAction act a w)
  /\ relojCoherente (performAction act a w)
  /\ backlight (performAction act a w) = LOW.
Proof.
  destruct w as [s p b lr lt e g c r m f tr], a as [t1 t2 h].
  unfold enlaceCoherente, relojCoherente, backlight.
  cbn [btRunning btActivo cpuMHz pantallaEncendida gpio].
  intros H1 (H2 & H3 & H4) H5.
  destruct act, b, p, h; cbn;
    repeat split; try assumption; try reflexivity; try discriminate; try lia;
    auto; intros; try discriminate; try lia; auto.
Qed.

Lemma reachable_coherente (w : World) :
  reachable w -> enlaceCoherente w /\ relojCoherente w /\ backlight w = LOW.
Proof.
  induction 1 as [pins mhz stored i | i w Hr IH | event a w Hr IH].
  - destruct (setup_estado pins mhz stored i)
      as (Hp & _ & Hb & _ & _ & _ & Hl & Hr & Hc & _).
    unfold enlaceCoherente, relojCoherente.
    rewrite Hr, Hb, Hc, Hp. repeat split; auto; intros; try lia; discriminate.
  - destruct IH as (I1 & (I2 & I3 & I4) & I5).
    rewrite loop_tactil.
    destruct (periodicas_efecto i w) as (_ & Hp & Hb & Hc & Hr' & Hl & _).
    set (w1 := tareaReles i (tareaSensores i (escuchaBluetooth i w))) in *.
    assert (J : enlaceCoherente w1 /\ relojCoherente w1 /\ backlight w1 = LOW).
    { unfold enlaceCoherente, relojCoherente. rewrite Hp, Hb, Hc, Hr', Hl.
      repeat split; assumption. }
    destruct (touch i) as [[x y]|]; [|exact J].
    destruct J as (J1 & J2 & J3). apply performAction_coherente; assumption.
  - destruct event; [|exact IH].
    destruct IH as (I1 & I2 & I5).
    destruct w as [s p b lr lt e g c r m f tr], a as [t1 t2 h].
    destruct h; exact (conj I1 (conj I2 I5)).
Qed.

(** X6: in every state the firmware reaches, the Bluetooth serial link is
    started exactly when btActivo is set. *)
Theorem X6_bluetooth_link_follows_flag (w : World) :
  reachable w -> btRunning w = btActivo w.
Proof. intros H; apply (reachable_coherente w H). Qed.

(** X7: in every state the firmware reaches, the clock is 80, 160 or
    240 MHz; it is 240 MHz whenever the display is on and never 80 MHz
    while Bluetooth is on. *)
Theorem X7_clock_tiers (w : World) :
  reachable w ->
  (cpuMHz w = 80 \/ cpuMHz w = 160 \/ cpuMHz w = 240)
  /\ (pantallaEncendida w = true -> cpuMHz w = 240)
  /\ (btActivo w = true -> cpuMHz w = 160 \/ cpuMHz w = 240).
Proof.
  intros H. destruct (reachable_coherente w H) as (_ & (H1 & H2 & H3) & _).
  split; [exact H1|]. split; [exact H2|].
  intros Hb. specialize (H3 Hb). lia.
Qed.


(** ** What a pass never does *)

Lemma performAction_dormida (act : Action) (a : Ambient) (w : World) :
  pantallaEncendida w = false -> act = NoAction \/ act = ToggleWireless ->
  displayCalls (performAction act a w) = displayCalls w
  /\ pantallaEncendida (performAction act a w) = false.
Proof.
  destruct w as [s p b lr lt e g c r m f tr]; cbn [pantallaEncendida]; intros ->.
  intros [-> | ->]; [split; reflexivity|].
  destruct b; split; reflexivity.
Qed.

(** X9: while the display is asleep, a pass of loop() makes no call on the
    display and leaves it asleep, unless it carries a touch strictly
    inside the wake button: neither the two periodic blocks nor a touch on
    the status corner draw on a sleeping panel. *)
Theorem X9_sleeping_display_is_not_drawn (i : LoopIn) (w : World) :
  pantallaEncendida w = false ->
  (forall x y, touch i = Some (x, y) -> ~ (125 < x < 230 /\ 250 < y < 310)) ->
  displayCalls (loop i w) = displayCalls w
  /\ pantallaEncendida (loop i w) = false.
Proof.
  intros Hp Ht. rewrite loop_tactil.
  destruct (periodicas_efecto i w) as (_ & Hp1 & _ & _ & _ & _ & _ & _ & Hd & _).
  specialize (Hd Hp). rewrite Hp in Hp1.
  set (w1 := tareaReles i (tareaSensores i (escuchaBluetooth i w))) in *.
  destruct (touch i) as [[x y]|]; [|split; assumption].
  specialize (Ht x y eq_refl).
  apply (not_true_false _ _ (inRightButton_spec x y)) in Ht.
  rewrite Hp1. rewrite <- Hd.
  apply performAction_dormida; [exact Hp1|].
  unfold resolveAction; rewrite Ht; cbn [negb].
  destruct (inStatusRegion x y); auto.
Qed.

Lemma performAction_sin_reporte (act : Action) (a : Ambient) (w : World) :
  act <> ToggleOutput ->
  consoleReports (performAction act a w) = consoleReports w
  /\ wirelessReports (performAction act a w) = wirelessReports w.
Proof.
  intros Ha. rewrite !consoleReports_rev, !wirelessReports_rev.
  destruct w as [s p b lr lt e g c r m f tr], a as [t1 t2 h].
  destruct act, b, p; try (split; reflexivity); destruct (Ha eq_refl).
Qed.

(** X10: a pass of loop() prints a status report, on the console or over
    Bluetooth, only for a touch strictly inside the left button of a lit
    panel; the periodic blocks, the other touches and any touch on a
    sleeping panel print none. *)
Theorem X10_only_the_left_button_reports (i : LoopIn) (w : World) :
  (forall x y, touch i = Some (x, y) -> pantallaEncendida w = true ->
               ~ (10 < x < 115 /\ 250 < y < 310)) ->
  consoleReports (loop i w) = consoleReports w
  /\ wirelessReports (loop i w) = wirelessReports w.
Proof.
  intros Ht. rewrite loop_tactil.
  destruct (periodicas_efecto i w) as (_ & Hp1 & _ & _ & _ & _ & _ & _ & _ & Hc & Hb).
  set (w1 := tareaReles i (tareaSensores i (escuchaBluetooth i w))) in *.
  destruct (touch i) as [[x y]|]; [|split; assumption].
  specialize (Ht x y eq_refl).
  rewrite <- Hc, <- Hb. apply performAction_sin_reporte.
  rewrite Hp1. unfold resolveAction.
  destruct (inStatusRegion x y); [discriminate|].
  destruct (pantallaEncendida w); cbn [negb].
  - specialize (Ht eq_refl).
    apply (not_true_false _ _ (inLeftButton_spec x y)) in Ht. rewrite Ht.
    destruct (inRightButton x y); discriminate.
  - destruct (inRightButton x y); discriminate.
Qed.

Lemma performAction_salida (a : Ambient) (w : World) :
  pantallaEncendida w = true ->
  consoleReports (performAction ToggleOutput a w)
  = consoleReports w
    ++ [reporte (estadoRele w) (negb (sistemaEstado w)) true (tempC0 a) (tempC1 a)]
  /\ estadoRele (performAction ToggleOutput a w) = estadoRele w.
Proof.
  rewrite !consoleReports_rev.
  destruct w as [s p b lr lt e g c r m f tr], a as [t1 t2 h].
  cbn [pantallaEncendida]; intros ->.
  destruct h, s; cbn; split; reflexivity.
Qed.

(** X11: the report that a pass of loop() prints for a touch on the left
    button tells the relay pins as that pass leaves them, also when the
    relay block fired earlier in the same pass: K1 reads ON exactly when
    pin 33 is HIGH and K2 exactly when pin 26 is.  The pass starts from a
    state the firmware reaches between routines; reports printed by the
    Bluetooth callback are not covered. *)
Theorem X11_loop_report_tells_the_relay_pins (i : LoopIn) (x y : Z) (w : World) :
  reachable w -> pantallaEncendida w = true ->
  touch i = Some (x, y) -> 10 < x < 115 -> 250 < y < 310 ->
  (isDisconnected (tempC0 (ambient i)) = false ->
   oneLine (String1 (tempC0 (ambient i))) = true) ->
  (isDisconnected (tempC1 (ambient i)) = false ->
   oneLine (String1 (tempC1 (ambient i))) = true) ->
  exists text,
    consoleReports (loop i w) = consoleReports w ++ [text]
    /\ nth 3 (lines text) ""
       = "Reles: K1=" +++ onOff (gpio (loop i w) PIN_RELE1)
         +++ " K2=" +++ onOff (gpio (loop i w) PIN_RELE2).
Proof.
  intros Hr Hp Ht Hx Hy H1 H2.
  destruct (reachable_inv (loop i w) (reach_loop i w Hr)) as [R1 R2].
  unfold relay1, relay2 in R1, R2. rewrite R1, R2. clear R1 R2.
  rewrite loop_tactil, Ht.
  destruct (periodicas_efecto i w) as (_ & Hp1 & _ & _ & _ & _ & _ & _ & _ & Hc & _).
  set (w1 := tareaReles i (tareaSensores i (escuchaBluetooth i w))) in *.
  rewrite Hp in Hp1. rewrite Hp1.
  assert (Hs : inStatusRegion x y = false)
    by (apply (not_true_false _ _ (inStatusRegion_spec x y)); lia).
  assert (Hl : inLeftButton x y = true) by (apply inLeftButton_spec; lia).
  unfold resolveAction; rewrite Hs, Hl; cbn [negb].
  destruct (performAction_salida (ambient i) w1 Hp1) as [Hc1 He1].
  exists (reporte (estadoRele w1) (negb (sistemaEstado w1)) true
            (tempC0 (ambient i)) (tempC1 (ambient i))).
  split; [rewrite Hc1, Hc; reflexivity|].
  rewrite He1.
  rewrite reporte_lines by (apply oneLine_campoSensor; assumption).
  destruct (estadoRele w1); reflexivity.
Qed.

(** X12: a pass of loop() without a touch changes nothing the user
    controls: sistemaEstado, pantallaEncendida, btActivo, the clock, the
    Bluetooth link and the backlight are as before, whichever periodic
    block fires and whatever arrives over Bluetooth. *)
Theorem X12_timers_leave_user_state (i : LoopIn) (w : World) :
  touch i = None ->
  sistemaEstado (loop i w) = sistemaEstado w
  /\ pantallaEncendida (loop i w) = pantallaEncendida w
  /\ btActivo (loop i w) = btActivo w
  /\ cpuMHz (loop i w) = cpuMHz w
  /\ btRunning (loop i w) = btRunning w
  /\ gpio (loop i w) PIN_BL = gpio w PIN_BL.
Proof.
  intros Ht. rewrite loop_tactil, Ht.
  destruct (periodicas_efecto i w) as (H1 & H2 & H3 & H4 & H5 & H6 & _).
  repeat split; assumption.
Qed.

(** ** Reporting *)

(** X13: reporting is read-only.  enviarReporteEstado and the Bluetooth
    callback change no global and nothing on the board, only the log; the
    callback prints one report of the current state on the console when a
    client connects, sends it over Bluetooth when the client is still
    there, and does nothing at all on any other event. *)
Theorem X13_reporting_is_read_only (event : spp_event) (a : Ambient) (w : World) :
  sinTraza (enviarReporteEstado a w) = sinTraza w
  /\ sinTraza (btCallback event a w) = sinTraza w
  /\ consoleReports (btCallback ESP_SPP_SRV_OPEN_EVT a w)
     = consoleReports w
       ++ [reporte (estadoRele w) (sistemaEstado w) (pantallaEncendida w)
             (tempC0 a) (tempC1 a)]
  /\ wirelessReports (btCallback ESP_SPP_SRV_OPEN_EVT a w)
     = wirelessReports w
       ++ (if hasClient a
           then [reporte (estadoRele w) (sistemaEstado w) (pantallaEncendida w)
                   (tempC0 a) (tempC1 a)]
           else [])
  /\ (forall code, btCallback (ESP_SPP_OTHER_EVT code) a w = w).
Proof.
  rewrite !consoleReports_rev, !wirelessReports_rev.
  destruct w as [s p b lr lt e g c r m f tr], a as [t1 t2 h].
  destruct event, h; cbn; rewrite ?app_nil_r; repeat split.
Qed.

(** ** Waking up *)

Lemma prefijo_cons (A : Type) (a : A) (l f x : list A) :
  l = f ++ x -> a :: l = (a :: f) ++ x.
Proof. intros ->; reflexivity. Qed.

(** X14: the display calls of one gestionarModoEnergia(true) start with
    command 0x11 and redraw the panel from the current state: among the
    calls of this wake, the last text drawn at the Bluetooth indicator, at
    the touch button and at the two relay cards shows btActivo,
    sistemaEstado and estadoRele as they are at that moment, whatever was
    drawn before the display slept. *)
Theorem X14_wake_redraws_current_state (a : Ambient) (w : World) :
  exists fresh,
    displayCalls (gestionarModoEnergia true a w) = fresh ++ displayCalls w
    /\ last fresh tft_init = writecommand 0x11
    /\ ultimoTexto 212 20 fresh = Some (if btActivo w then "BT ON" else "BT OFF")
    /\ ultimoTexto 62 280 fresh
       = Some (if sistemaEstado w then "TACTIL ON" else "TACTIL OFF")
    /\ ultimoTexto 62 195 fresh
       = Some (if estadoRele w then " ESTADO: ON " else " ESTADO: OFF")
    /\ ultimoTexto 177 195 fresh
       = Some (if estadoRele w then " ESTADO: OFF" else " ESTADO: ON ").
Proof.
  destruct w as [s p b lr lt e g c r m f tr], a as [t1 t2 h].
  unfold displayCalls. cbn [btActivo sistemaEstado estadoRele trace].
  destruct b, s, e; cbn;
    (eexists; split;
     [ repeat apply prefijo_cons; exact (eq_refl (nil ++ flat_map tftArg tr))
     | repeat split ]).
Qed.

(** ** Calibration across boots *)

(** X15: a boot that calibrates on a mounted store (no file there, or a
    byte waiting on the serial port) leaves a file of 14 bytes that starts
    with the five words it acquired; the next boot on a mounted store with
    a silent serial port hands exactly those five words to tft.setTouch,
    does not calibrate and leaves the file as it is. *)
Theorem X15_calibration_persists_across_boots
  (pins pins' : Z -> Level) (mhz mhz' : Z) (stored : option (list Byte.byte))
  (i i' : SetupIn) :
  spiffsBegin i = true -> stored = None \/ serialAvailable i <> 0 ->
  List.length (acquired i) = 5%nat ->
  Forall (fun v => 0 <= v < 65536) (acquired i) ->
  List.length (spill i) = 4%nat ->
  spiffsBegin i' = true -> serialAvailable i' = 0 ->
  let w := setup i (powerOn pins mhz stored) in
  let w' := setup i' (powerOn pins' mhz' (calFile w)) in
  acquisitions w = 1%nat
  /\ (exists c, calFile w = Some c
                /\ List.length c = 14%nat
                /\ palabras (firstn 10 c) = acquired i)
  /\ acquisitions w' = 0%nat
  /\ loadedCalibrations w' = [acquired i]
  /\ calFile w' = calFile w.
Proof.
  intros Hb Hc Hl Hr Hsp Hb' Hs' w w'.
  destruct (palabras_octetos (acquired i) (spill i) Hr) as (P1 & P2 & P3).
  rewrite Hl in P2, P3. change (2 * 5)%nat with 10%nat in P2, P3.
  pose proof (setup_calibracion pins mhz stored i) as H. cbv zeta in H. fold w in H.
  assert (U : spiffsBegin i
              && match stored with
                 | Some c => checkTrasLeer (checkSlot i) c
                 | None => false
                 end
              && (serialAvailable i =? 0) = false).
  { destruct Hc as [-> | Hs].
    - rewrite andb_false_r; reflexivity.
    - apply Z.eqb_neq in Hs; rewrite Hs, andb_false_r; reflexivity. }
  rewrite U, Hb in H. destruct H as (Ha & _ & Hf).
  assert (L : List.length (octetos (acquired i) ++ spill i) = 14%nat)
    by (rewrite length_app; lia).
  pose proof (setup_calibracion pins' mhz' (calFile w) i') as H'.
  cbv zeta in H'. fold w' in H'. rewrite Hf, Hb', Hs' in H'.
  rewrite checkTrasLeer_completo in H' by lia.
  unfold readBytes in H'. rewrite firstn_all2 with (n := 14%nat) in H' by lia.
  rewrite P3, P1 in H'. cbn [andb Z.eqb] in H'. destruct H' as (H1 & H2 & H3).
  split; [exact Ha|]. split.
  - exists (octetos (acquired i) ++ spill i).
    split; [exact Hf|]. split; [exact L|]. rewrite P3; exact P1.
  - split; [exact H1|]. split; [exact H2|]. rewrite Hf; exact H3.
Qed.

(** X16: a stored file of at most 10 bytes, which fits calData, is never
    taken for a calibration: on a mounted store with a silent serial port
    the boot calibrates and replaces the file. *)
Theorem X16_short_file_is_recalibrated
  (pins : Z -> Level) (mhz : Z) (c : list Byte.byte) (i : SetupIn) :
  spiffsBegin i = true -> serialAvailable i = 0 -> (List.length c <= 10)%nat ->
  let w := setup i (powerOn pins mhz (Some c)) in
  acquisitions w = 1%nat
  /\ loadedCalibrations w = []
  /\ calFile w = Some (octetos (acquired i) ++ spill i).
Proof.
  intros Hb Hs Hl w.
  pose proof (setup_calibracion pins mhz (Some c) i) as H. cbv zeta in H. fold w in H.
  rewrite Hb, Hs, (checkTrasLeer_corto _ c Hl) in H. exact H.
Qed.


End FurtherProperties.

(** * The further properties on the bench *)

Lemma mundoDormido_estado :
  pantallaEncendida mundoDormido = false /\ @reachable sondasDeBanco mundoArrancado.
Proof. split; [vm_compute; reflexivity|apply reach_setup]. Qed.

Lemma X1_witness :
  sistemaEstado (tareaTactil (pasada 0 None) 50 280 mundoArrancado) = true.
Proof.
  destruct mundoArrancado_estado as (_ & _ & _ & Hp).
  destruct (X1_left_button_toggles_output (pasada 0 None) 50 280 mundoArrancado Hp)
    as (H & _); [lia|lia|].
  exact H.
Defined.

Lemma X2_witness :
  pantallaEncendida (tareaTactil (pasada 0 None) 150 280 mundoArrancado) = false
  /\ tareaTactil (pasada 0 None) 120 280 mundoArrancado = mundoArrancado.
Proof.
  destruct mundoArrancado_estado as (_ & _ & _ & Hp).
  destruct (X2_right_button_sleeps_elsewhere_nothing (pasada 0 None) 150 280
              mundoArrancado Hp) as [A _].
  destruct (X2_right_button_sleeps_elsewhere_nothing (pasada 0 None) 120 280
              mundoArrancado Hp) as [_ B].
  split.
  - apply A; lia.
  - apply B; lia.
Defined.

Lemma X3_witness :
  globales (tareaTactil (pasada 900 None) 150 280
              (tareaTactil (pasada 0 None) 150 280 mundoArrancado))
  = globales mundoArrancado.
Proof.
  destruct mundoArrancado_estado as (_ & _ & _ & Hp).
  apply (X3_right_button_twice_round_trip (pasada 0 None) (pasada 900 None)
           150 280 150 280 mundoArrancado Hp); lia.
Defined.

Lemma X4_witness :
  conversionRequests (loop (pasada 1999 None) mundoArrancado)
  = conversionRequests mundoArrancado
  /\ conversionRequests (loop (pasada 2000 None) mundoArrancado)
     = S (conversionRequests mundoArrancado).
Proof.
  pose proof (X4_sensor_poll_every_2000ms (pasada 1999 None) mundoArrancado) as A.
  pose proof (X4_sensor_poll_every_2000ms (pasada 2000 None) mundoArrancado) as B.
  cbv zeta in A, B.
  destruct A as (_ & A & _). destruct B as (B & _).
  split.
  - apply A; vm_compute; reflexivity.
  - apply B; vm_compute; discriminate.
Defined.

(** The relay block fires at 4294967000 ms; 3000 ms later the counter has
    wrapped and reads 2704. *)
Lemma X5_witness :
  estadoRele (loop (pasada 4294967000 None) mundoArrancado) = true
  /\ estadoRele (loop (pasada 2704 None) (loop (pasada 4294967000 None) mundoArrancado))
     = false.
Proof.
  assert (E : estadoRele (loop (pasada 4294967000 None) mundoArrancado) = true)
    by (vm_compute; reflexivity).
  split; [exact E|].
  assert (D : 0 <= 3000 < 2 ^ 32) by lia.
  destruct (X5_schedules_survive_millis_overflow (pasada 2704 None)
              (loop (pasada 4294967000 None) mundoArrancado) 3000 D) as [A _].
  rewrite A; [rewrite E; reflexivity|vm_compute; reflexivity].
Defined.

Lemma X6_witness :
  btRunning mundoConBluetooth = btActivo mundoConBluetooth.
Proof.
  apply (@X6_bluetooth_link_follows_flag sondasDeBanco).
  apply reach_loop; apply reach_setup.
Defined.

Lemma X7_witness :
  cpuMHz mundoConBluetooth = 80 \/ cpuMHz mundoConBluetooth = 160
  \/ cpuMHz mundoConBluetooth = 240.
Proof.
  apply (@X7_clock_tiers sondasDeBanco mundoConBluetooth).
  apply reach_loop; apply reach_setup.
Defined.


Lemma X9_witness :
  displayCalls (loop (pasada 5000 (Some (200, 10))) mundoDormido) = displayCalls mundoDormido.
Proof.
  destruct mundoDormido_estado as (Hp & _).
  apply (X9_sleeping_display_is_not_drawn (pasada 5000 (Some (200, 10))) mundoDormido Hp).
  intros x y H; injection H as <- <-; lia.
Defined.

Lemma X10_witness :
  consoleReports (loop (pasada 3000 (Some (150, 280))) mundoArrancado)
  = consoleReports mundoArrancado.
Proof.
  apply (X10_only_the_left_button_reports (pasada 3000 (Some (150, 280))) mundoArrancado).
  intros x y H _; injection H as <- <-; lia.
Defined.

Lemma X11_witness :
  exists text,
    consoleReports (loop pasadaBotonIzquierdo mundoArrancado)
    = consoleReports mundoArrancado ++ [text]
    /\ nth 3 (lines text) ""
       = "Reles: K1=" +++ onOff (gpio (loop pasadaBotonIzquierdo mundoArrancado) PIN_RELE1)
         +++ " K2=" +++ onOff (gpio (loop pasadaBotonIzquierdo mundoArrancado) PIN_RELE2).
Proof.
  destruct mundoDormido_estado as (_ & Hr).
  destruct mundoArrancado_estado as (_ & _ & _ & Hp).
  apply (X11_loop_report_tells_the_relay_pins pasadaBotonIzquierdo 50 280
           mundoArrancado Hr Hp eq_refl); try lia; intros _; reflexivity.
Defined.

Lemma X12_witness :
  sistemaEstado (loop (pasada 3000 None) mundoArrancado) = sistemaEstado mundoArrancado.
Proof.
  apply (X12_timers_leave_user_state (pasada 3000 None) mundoArrancado eq_refl).
Defined.

Lemma X15_witness :
  acquisitions mundoRecalibrado = 1%nat
  /\ loadedCalibrations
       (setup arranqueNormal (powerOn pinesBajos 240 (calFile mundoRecalibrado)))
     = [palabrasDeBanco].
Proof.
  assert (R : Forall (fun v => 0 <= v < 65536) palabrasDeBanco)
    by (repeat constructor; lia).
  assert (S1 : serialAvailable arranqueConSerie <> 0) by discriminate.
  destruct (X15_calibration_persists_across_boots pinesBajos pinesBajos 160 240
              (Some blob14) arranqueConSerie arranqueNormal
              eq_refl (or_intror S1) eq_refl R eq_refl eq_refl eq_refl)
    as (A & _ & _ & B & _).
  split; [exact A|exact B].
Defined.

Lemma X16_witness :
  acquisitions (setup arranqueNormal (powerOn pinesBajos 160 (Some (firstn 10 blob14))))
  = 1%nat.
Proof.
  apply (X16_short_file_is_recalibrated pinesBajos 160 (firstn 10 blob14) arranqueNormal
           eq_refl eq_refl).
  vm_compute; lia.
Defined.

